(** * Cloud project storage client and cloud-to-workspace sync

    A shallow embedding of the two TypeScript modules of the
    ctrl-alt-code-custom folder:

      - the database API client (saveProject, getUserProjects, getProject,
        updateProject, deleteProject, checkApiHealth, getCurrentUserId,
        setApiBaseUrl, getApiBaseUrl) together with the Base64 helpers of the
        cloud save button (uint8ArrayToBase64, base64ToUint8Array,
        handleCloudSaveWithData);
      - syncFromCloud.ts (syncFromCloud, importCloudProject).

    The code is asynchronous but strictly sequential: every [await] suspends
    the routine until its promise settles.  It is embedded in a state and
    exception monad over a [World] that holds the state of the collaborators
    (server, workspace store, browser page), the mutable base URL and the
    chronological trace of observable effects (console output, notifications,
    HTTP requests, workspace calls).  A rejected promise and a thrown value
    are the same thing for the awaiting code, namely [inl e]. *)

From Stdlib Require Import String Ascii List ZArith Bool Lia DecimalString.
From Stdlib Require Import Floats.SpecFloat.
Import ListNotations.
Open Scope string_scope.
Open Scope list_scope.

Set Implicit Arguments.
Set Warnings "-register-all".

(* ================================================================== *)
(** * JavaScript values that the code inspects dynamically *)
(* ================================================================== *)

Module JS.

(** A value produced by JSON.parse.  Objects keep their members in source
    order; JSON.parse leaves one member per key. *)
Inductive JSON : Type :=
| JNull
| JBool (b : bool)
| JNum (f : spec_float)
| JStr (s : string)
| JArr (items : list JSON)
| JObj (members : list (string * JSON)).

(** A value of static type [any]: [None] is [undefined]. *)
Definition JSval := option JSON.

(** What can be thrown: an Error object (Error, TypeError, SyntaxError, ...)
    or any other value, of which only String(value) is ever observed. *)
Inductive Exn : Type :=
| JsError (name message : string)
| JsThrown (str : string).

(** [new Error(message)] *)
Definition new_Error (message : string) : Exn := JsError "Error" message.

(** [error instanceof Error ? error.message : String(error)] *)
Definition errorMsg (error : Exn) : string :=
  match error with
  | JsError _ message => message
  | JsThrown str => str
  end.

Definition typeof (v : JSval) : string :=
  match v with
  | None => "undefined"
  | Some JNull => "object"
  | Some (JBool _) => "boolean"
  | Some (JNum _) => "number"
  | Some (JStr _) => "string"
  | Some (JArr _) => "object"
  | Some (JObj _) => "object"
  end.

(** ToBoolean *)
Definition truthy (v : JSval) : bool :=
  match v with
  | None => false
  | Some JNull => false
  | Some (JBool b) => b
  | Some (JNum (S754_zero _)) => false
  | Some (JNum S754_nan) => false
  | Some (JNum _) => true
  | Some (JStr s) => negb (s =? "")
  | Some (JArr _) => true
  | Some (JObj _) => true
  end.

(** [a || b] *)
Definition or_else (a b : JSval) : JSval := if truthy a then a else b.

Fixpoint assoc (k : string) (members : list (string * JSON)) : JSval :=
  match members with
  | [] => None
  | (k', v) :: rest => if k' =? k then Some v else assoc k rest
  end.

(** [v.k] and [v[k]] for a key [k] that is neither an array index, nor
    "length", nor a member of a built-in prototype (all keys the code reads
    are of this kind: source, text, meta, header, error, the configuration
    file name, ...).  Reading a property of null throws a TypeError; a
    primitive or an array has no such property. *)
Definition Get (v : JSON) (k : string) : Exn + JSval :=
  match v with
  | JNull =>
      inl (JsError "TypeError"
             ("Cannot read properties of null (reading '" ++ k ++ "')"))
  | JObj members => inr (assoc k members)
  | _ => inr None
  end.

(** [v?.k]: undefined when [v] is null or undefined. *)
Definition optGet (v : JSval) (k : string) : JSval :=
  match v with
  | Some (JObj members) => assoc k members
  | _ => None
  end.

Fixpoint indices (from n : nat) : list string :=
  match n with
  | O => []
  | S n' => NilZero.string_of_uint (Nat.to_uint from) :: indices (S from) n'
  end.

(** [Object.keys(v)] for a non-null [v]. *)
Definition Object_keys (v : JSON) : list string :=
  match v with
  | JObj members => map fst members
  | JArr items => indices 0 (List.length items)
  | JStr s => indices 0 (String.length s)
  | _ => []
  end.

Section ToString.
(** Number::toString is left to the engine. *)
Variable Number_toString : spec_float -> string.

(** ToString on a parsed value; an array prints its elements joined by
    commas, with null printed as the empty string. *)
Fixpoint ToString (v : JSON) : string :=
  match v with
  | JNull => "null"
  | JBool true => "true"
  | JBool false => "false"
  | JNum f => Number_toString f
  | JStr s => s
  | JArr items =>
      String.concat ","
        (map (fun x => match x with JNull => "" | _ => ToString x end) items)
  | JObj _ => "[object Object]"
  end.
End ToString.

End JS.
Import JS.

(* ================================================================== *)
(** * JSON.stringify of a flat object of optional strings *)
(* ================================================================== *)

Module Stringify.

Definition hexDigit (n : nat) : ascii :=
  match n with
  | 0 => "0" | 1 => "1" | 2 => "2" | 3 => "3" | 4 => "4" | 5 => "5"
  | 6 => "6" | 7 => "7" | 8 => "8" | 9 => "9" | 10 => "a" | 11 => "b"
  | 12 => "c" | 13 => "d" | 14 => "e" | _ => "f"
  end%char.

Definition dquote : ascii := ascii_of_nat 34.
Definition backslash : ascii := ascii_of_nat 92.

(** A two-character escape: a backslash and a letter. *)
Definition esc (c : ascii) : string := String backslash (String c EmptyString).

(** The escape of one character inside a JSON string (QuoteJSONString). *)
Definition quoteChar (c : ascii) : string :=
  let n := nat_of_ascii c in
  if Nat.eqb n 8 then esc "b"
  else if Nat.eqb n 9 then esc "t"
  else if Nat.eqb n 10 then esc "n"
  else if Nat.eqb n 12 then esc "f"
  else if Nat.eqb n 13 then esc "r"
  else if Nat.eqb n 34 then esc dquote
  else if Nat.eqb n 92 then esc backslash
  else if Nat.ltb n 32 then
    esc "u" ++ "00" ++
    String (hexDigit (n / 16)) (String (hexDigit (n mod 16)) EmptyString)
  else String c EmptyString.

Fixpoint quoteChars (s : string) : string :=
  match s with
  | EmptyString => EmptyString
  | String c rest => quoteChar c ++ quoteChars rest
  end.

Definition QuoteJSONString (s : string) : string :=
  String dquote (quoteChars s ++ String dquote EmptyString).

(** An object literal whose property values are strings or undefined. *)
Definition Obj := list (string * option string).

(** SerializeJSONObject: the list of serialized members.  A property whose
    value is undefined yields no member. *)
Fixpoint SerializeJSONObject (o : Obj) : list (string * string) :=
  match o with
  | [] => []
  | (k, None) :: rest => SerializeJSONObject rest
  | (k, Some v) :: rest => (k, QuoteJSONString v) :: SerializeJSONObject rest
  end.

Definition member (kv : string * string) : string :=
  QuoteJSONString (fst kv) ++ ":" ++ snd kv.

Definition JSON_stringify (o : Obj) : string :=
  "{" ++ String.concat "," (map member (SerializeJSONObject o)) ++ "}".

End Stringify.
Import Stringify.

(* ================================================================== *)
(** * Reading a serialized flat object back *)
(* ================================================================== *)

(** A reader of the compact text JSON.stringify writes for an object whose
    values are strings: it yields the members with their keys and values
    unescaped, and nothing for any other text.  It serves to say what a
    request body holds. *)
Module ReadBack.

Definition hexValue (c : ascii) : option nat :=
  let n := nat_of_ascii c in
  if Nat.leb 48 n && Nat.leb n 57 then Some (n - 48)
  else if Nat.leb 97 n && Nat.leb n 102 then Some (n - 87)
  else if Nat.leb 65 n && Nat.leb n 70 then Some (n - 55)
  else None.

Definition unescape (c : ascii) : option ascii :=
  let n := nat_of_ascii c in
  if Nat.eqb n 98 then Some (ascii_of_nat 8)
  else if Nat.eqb n 116 then Some (ascii_of_nat 9)
  else if Nat.eqb n 110 then Some (ascii_of_nat 10)
  else if Nat.eqb n 102 then Some (ascii_of_nat 12)
  else if Nat.eqb n 114 then Some (ascii_of_nat 13)
  else if Nat.eqb n 34 then Some dquote
  else if Nat.eqb n 92 then Some backslash
  else if Nat.eqb n 47 then Some c
  else None.

Definition consChar (c : option ascii) (r : option (string * string))
  : option (string * string) :=
  match c, r with
  | Some c, Some (content, rest) => Some (String c content, rest)
  | _, _ => None
  end.

Definition codeUnit (h1 h2 h3 h4 : ascii) : option ascii :=
  match hexValue h1, hexValue h2, hexValue h3, hexValue h4 with
  | Some a, Some b, Some c, Some d =>
      let n := 4096 * a + 256 * b + 16 * c + d in
      if Nat.ltb n 256 then Some (ascii_of_nat n) else None
  | _, _, _, _ => None
  end.

Fixpoint readChars (s : string) : option (string * string) :=
  match s with
  | EmptyString => None
  | String c rest =>
      if Ascii.eqb c dquote then Some (EmptyString, rest)
      else if Ascii.eqb c backslash then
        match rest with
        | String e rest' =>
            if Ascii.eqb e "u" then
              match rest' with
              | String h1 (String h2 (String h3 (String h4 rest''))) =>
                  consChar (codeUnit h1 h2 h3 h4) (readChars rest'')
              | _ => None
              end
            else consChar (unescape e) (readChars rest')
        | EmptyString => None
        end
      else if Nat.ltb (nat_of_ascii c) 32 then None
      else consChar (Some c) (readChars rest)
  end.

Definition readString (s : string) : option (string * string) :=
  match s with
  | String c rest => if Ascii.eqb c dquote then readChars rest else None
  | EmptyString => None
  end.

Fixpoint readMembers (fuel : nat) (s : string)
  : option (list (string * string)) :=
  match fuel with
  | O => None
  | S fuel' =>
      match readString s with
      | Some (k, String colon afterColon) =>
          if Ascii.eqb colon ":" then
            match readString afterColon with
            | Some (v, String sep rest) =>
                if Ascii.eqb sep "," then
                  option_map (cons (k, v)) (readMembers fuel' rest)
                else if Ascii.eqb sep "}" then
                  match rest with
                  | EmptyString => Some [(k, v)]
                  | _ => None
                  end
                else None
            | _ => None
            end
          else None
      | _ => None
      end
  end.

Definition readObject (s : string) : option (list (string * string)) :=
  match s with
  | String c rest =>
      if Ascii.eqb c "{" then
        if rest =? "}" then Some []
        else readMembers (String.length s) rest
      else None
  | EmptyString => None
  end.

End ReadBack.
Import ReadBack.

(** The members of an object literal whose value is defined. *)
Fixpoint definedMembers (o : Obj) : list (string * string) :=
  match o with
  | [] => []
  | (k, None) :: rest => definedMembers rest
  | (k, Some v) :: rest => (k, v) :: definedMembers rest
  end.

Definition quoted (kv : string * string) : string * string :=
  (fst kv, QuoteJSONString (snd kv)).

(* ================================================================== *)
(** * Data model *)
(* ================================================================== *)

(** DbProjectListItem: a project list item (without full data). *)
Record DbProjectListItem := {
  item_id : Z;
  project_name : string;
  created_at : string;
  updated_at : string
}.

(** The record the server returns for one project (snake_case fields),
    as getProject reads it. *)
Record ProjectRow := {
  row_id : Z;
  row_user_id : string;
  row_project_name : string;
  row_project_data : string;
  row_created_at : option string;
  row_updated_at : option string
}.

(** DbProjectRecord: project data stored in the database. *)
Record DbProjectRecord := {
  db_id : option Z;
  userId : string;
  projectName : string;
  projectData : string;  (* Base64 encoded Uint8Array *)
  createdAt : option string;
  updatedAt : option string
}.

(** CloudProjectData of syncFromCloud.ts. *)
Record CloudProjectData := {
  cloud_projectName : string;
  cloud_projectData : string;  (* Base64 encoded Uint8Array *)
  cloud_createdAt : option string
}.

(** pxt.workspace.InstallHeader, with the fields importCloudProject sets.
    The fields copied from the payload hold whatever the payload held. *)
Record InstallHeader := {
  target : string;
  targetVersion : JSval;
  editor : JSval;
  name : string;
  meta : JSval;
  pubId : JSval;
  pubCurrent : bool
}.

(** pxt.workspace.Header: an installed project.  The code reads its name. *)
Record Header := {
  header_id : string;
  header_name : string
}.

(** The argument of [fetch]. *)
Record Request := {
  url : string;
  method : string;
  headers : list (string * string);
  body : option string
}.

(** What the code observes of a fetch Response: [response.ok] and the
    settled result of [response.json()]. *)
Record Response := {
  ok : bool;
  json : Exn + JSON
}.

(** [lf(format, ...args)]: a localizable message, kept with its arguments. *)
Inductive LfArg : Type :=
| LfStr (s : string)
| LfNum (n : nat).

Record Message := lf {
  format : string;
  args : list LfArg
}.

(** Arguments of console.log and console.error. *)
Inductive LogArg : Type :=
| LStr (s : string)
| LNum (n : nat)
| LErr (e : Exn)
| LJson (v : JSON)
| LKeys (ks : list string)
| LStrOpt (s : option string).

(** Observable effects, in the order in which they happen. *)
Inductive Event : Type :=
| ConsoleLog (a : list LogArg)
| ConsoleError (a : list LogArg)
| InfoNotification (m : Message)      (* core.infoNotification *)
| ErrorNotification (m : Message)     (* core.errorNotification *)
| FetchCall (req : Request)           (* fetch(url, init) *)
| GetHeadersCall                      (* workspace.getHeaders(false) *)
| InstallCall (h : InstallHeader) (text : JSON)  (* workspace.installAsync *)
| RefreshCall                         (* window.refreshWorkspace() *)
| StorageRead (key : string).         (* localStorage.getItem *)

(* ================================================================== *)
(** * Collaborators *)
(* ================================================================== *)

(** Everything the two modules call but do not define: browser built-ins,
    the pxt library, the workspace store and the server.  [HostState] is
    the state of all of them; the stateful members are transitions on it. *)
Class Host := {
  HostState : Type;
  (* built-ins *)
  Number_toString : spec_float -> string;
  JSON_parse : string -> string + JSON;   (* inl m: SyntaxError of message m *)
  encodeURIComponent : string -> string;
  host_fetch : HostState -> Request -> (Exn + Response) * HostState;
  localStorage_getItem : HostState -> string -> Exn + option string;
  window_refreshWorkspace : HostState -> option ((Exn + unit) * HostState);
  (* the declared type of a successful response body *)
  as_DbProjectListItems : JSON -> list DbProjectListItem;
  as_ProjectRow : JSON -> ProjectRow;
  (* pxt *)
  pxt_CONFIG_NAME : string;
  pxt_BLOCKS_PROJECT_NAME : string;
  pxt_appTarget_id : string;
  ts_pxtc_encodeBase64 : string -> Exn + string;
  ts_pxtc_decodeBase64 : string -> Exn + string;
  pxt_Util_uint8ArrayToString : list Byte.byte -> string;
  pxt_Util_stringToUint8Array : string -> list Byte.byte;
  pxt_lzmaDecompressAsync : list Byte.byte -> Exn + string;
  (* ../workspace *)
  workspace_getHeaders : HostState -> list Header;
  workspace_installAsync :
    HostState -> InstallHeader -> JSON -> (Exn + Header) * HostState
}.

(* ================================================================== *)
(** * The monad of the embedding *)
(* ================================================================== *)

Section Program.
Context {H : Host}.

Record World := {
  host : HostState;
  API_BASE_URL : string;    (* let API_BASE_URL, module state of the client *)
  trace : list Event
}.

(** The value [API_BASE_URL] is initialized with: the environment variable
    of that name when it is set to a non-empty string, the local server
    otherwise. *)
Definition initial_API_BASE_URL (process_env_API_BASE_URL : option string)
  : string :=
  if truthy (option_map JStr process_env_API_BASE_URL) then
    match process_env_API_BASE_URL with Some u => u | None => "" end
  else "http://localhost:3001".

Definition M (A : Type) : Type := World -> (Exn + A) * World.

Definition ret {A} (a : A) : M A := fun w => (inr a, w).

Definition throw {A} (e : Exn) : M A := fun w => (inl e, w).

Definition bind {A B} (m : M A) (k : A -> M B) : M B :=
  fun w =>
    match m w with
    | (inl e, w') => (inl e, w')
    | (inr a, w') => k a w'
    end.

(** [try { m } catch (error) { handler error }] *)
Definition tryCatch {A} (m : M A) (handler : Exn -> M A) : M A :=
  fun w =>
    match m w with
    | (inl e, w') => handler e w'
    | (inr a, w') => (inr a, w')
    end.

Definition liftE {A} (r : Exn + A) : M A := fun w => (r, w).

Definition record (e : Event) (w : World) : World :=
  {| host := host w; API_BASE_URL := API_BASE_URL w;
     trace := trace w ++ [e] |}.

Definition with_host (h : HostState) (w : World) : World :=
  {| host := h; API_BASE_URL := API_BASE_URL w; trace := trace w |}.

Definition emit (e : Event) : M unit := fun w => (inr tt, record e w).

End Program.

Declare Scope js_scope.
Delimit Scope js_scope with js.
Notation "x <- m ;; k" := (bind m (fun x => k))
  (at level 61, m at next level, right associativity) : js_scope.
Notation "m ;; k" := (bind m (fun _ => k))
  (at level 61, right associativity) : js_scope.
Open Scope js_scope.

(* ================================================================== *)
(** * Database API client *)
(* ================================================================== *)

Section Client.
Context {H : Host}.

Definition console_log (a : list LogArg) : M unit := emit (ConsoleLog a).
Definition console_error (a : list LogArg) : M unit := emit (ConsoleError a).
Definition core_infoNotification (m : Message) : M unit :=
  emit (InfoNotification m).
Definition core_errorNotification (m : Message) : M unit :=
  emit (ErrorNotification m).

(** [await fetch(url, init)]: a network failure rejects. *)
Definition fetch (req : Request) : M Response :=
  fun w =>
    let r := host_fetch (host w) req in
    (fst r, with_host (snd r) (record (FetchCall req) w)).

Definition read_API_BASE_URL : M string := fun w => (inr (API_BASE_URL w), w).

(** ToString of a value of type [any]. *)
Definition ToStr (v : JSval) : string :=
  match v with
  | None => "undefined"
  | Some j => ToString Number_toString j
  end.

(** [JSON.parse(v)]: the argument is converted to a string first. *)
Definition parseJSON (v : JSval) : M JSON :=
  match JSON_parse (ToStr v) with
  | inl m => throw (JsError "SyntaxError" m)
  | inr j => ret j
  end.

Definition string_of_number (n : Z) : string :=
  NilZero.string_of_int (Z.to_int n).

Definition string_of_nat (n : nat) : string :=
  NilZero.string_of_uint (Nat.to_uint n).

Definition json_headers : list (string * string) :=
  [("Content-Type", "application/json")].

(** The two lines every operation runs on [!response.ok]:
    [const error = await response.json();
     throw new Error(error.error || fallback)] *)
Definition throwApiError {A} (response : Response) (fallback : string) : M A :=
  error <- liftE (json response) ;;
  message <- liftE (Get error "error") ;;
  throw (new_Error (ToStr (or_else message (Some (JStr fallback))))).

Definition saveProject_request (base userId projectName projectData : string)
  : Request :=
  {| url := base ++ "/api/projects";
     method := "POST";
     headers := json_headers;
     body := Some (JSON_stringify [("userId", Some userId);
                                   ("projectName", Some projectName);
                                   ("projectData", Some projectData)]) |}.

(** Save a project to the cloud database; returns the response body
    (declared as { success; id; createdAt }) as received. *)
Definition saveProject (userId projectName projectData : string) : M JSON :=
  tryCatch
    (base <- read_API_BASE_URL ;;
     response <- fetch (saveProject_request base userId projectName projectData) ;;
     if negb (ok response) then throwApiError response "Failed to save project"
     else
       result <- liftE (json response) ;;
       console_log [LStr "✅ Project saved to cloud:"; LJson result] ;;
       ret result)
    (fun error =>
       console_error [LStr "❌ Error saving project to cloud:"; LErr error] ;;
       throw error).

Definition getUserProjects_request (base userId : string) : Request :=
  {| url := base ++ "/api/projects/user/" ++ encodeURIComponent userId;
     method := "GET";
     headers := json_headers;
     body := None |}.

(** Get all projects for a specific user. *)
Definition getUserProjects (userId : string) : M (list DbProjectListItem) :=
  tryCatch
    (base <- read_API_BASE_URL ;;
     response <- fetch (getUserProjects_request base userId) ;;
     if negb (ok response) then throwApiError response "Failed to fetch projects"
     else
       received <- liftE (json response) ;;
       let projects := as_DbProjectListItems received in
       console_log [LStr ("📋 Fetched " ++ string_of_nat (List.length projects)
                          ++ " projects for user " ++ userId)] ;;
       ret projects)
    (fun error =>
       console_error [LStr "❌ Error fetching user projects:"; LErr error] ;;
       throw error).

Definition getProject_request (base : string) (projectId : Z) (userId : string)
  : Request :=
  {| url := base ++ "/api/projects/" ++ string_of_number projectId
            ++ "?userId=" ++ encodeURIComponent userId;
     method := "GET";
     headers := json_headers;
     body := None |}.

(** Get a single project with full data. *)
Definition getProject (projectId : Z) (userId : string) : M DbProjectRecord :=
  tryCatch
    (base <- read_API_BASE_URL ;;
     response <- fetch (getProject_request base projectId userId) ;;
     if negb (ok response) then throwApiError response "Failed to fetch project"
     else
       received <- liftE (json response) ;;
       let project := as_ProjectRow received in
       console_log [LStr ("📥 Fetched project " ++ string_of_number projectId ++ ":");
                    LStr (row_project_name project)] ;;
       ret {| db_id := Some (row_id project);
              userId := row_user_id project;
              projectName := row_project_name project;
              projectData := row_project_data project;
              createdAt := row_created_at project;
              updatedAt := row_updated_at project |})
    (fun error =>
       console_error [LStr ("❌ Error fetching project "
                            ++ string_of_number projectId ++ ":"); LErr error] ;;
       throw error).

(** The object literal [{ userId, projectName, projectData }] of
    updateProject; an omitted argument is an undefined property value. *)
Definition updateProject_body (userId : string)
  (projectName projectData : option string) : Obj :=
  [("userId", Some userId);
   ("projectName", projectName);
   ("projectData", projectData)].

Definition updateProject_request (base : string) (projectId : Z)
  (userId : string) (projectName projectData : option string) : Request :=
  {| url := base ++ "/api/projects/" ++ string_of_number projectId;
     method := "PUT";
     headers := json_headers;
     body := Some (JSON_stringify
                     (updateProject_body userId projectName projectData)) |}.

(** Update an existing project; [None] is an omitted optional argument. *)
Definition updateProject (projectId : Z) (userId : string)
  (projectName projectData : option string) : M JSON :=
  tryCatch
    (base <- read_API_BASE_URL ;;
     response <- fetch (updateProject_request base projectId userId
                          projectName projectData) ;;
     if negb (ok response) then throwApiError response "Failed to update project"
     else
       result <- liftE (json response) ;;
       console_log [LStr ("✅ Project " ++ string_of_number projectId ++ " updated:");
                    LJson result] ;;
       ret result)
    (fun error =>
       console_error [LStr ("❌ Error updating project "
                            ++ string_of_number projectId ++ ":"); LErr error] ;;
       throw error).

Definition deleteProject_request (base : string) (projectId : Z)
  (userId : string) : Request :=
  {| url := base ++ "/api/projects/" ++ string_of_number projectId
            ++ "?userId=" ++ encodeURIComponent userId;
     method := "DELETE";
     headers := json_headers;
     body := None |}.

(** Delete a project from the cloud. *)
Definition deleteProject (projectId : Z) (userId : string) : M JSON :=
  tryCatch
    (base <- read_API_BASE_URL ;;
     response <- fetch (deleteProject_request base projectId userId) ;;
     if negb (ok response) then throwApiError response "Failed to delete project"
     else
       result <- liftE (json response) ;;
       console_log [LStr ("🗑️  Project " ++ string_of_number projectId ++ " deleted")] ;;
       ret result)
    (fun error =>
       console_error [LStr ("❌ Error deleting project "
                            ++ string_of_number projectId ++ ":"); LErr error] ;;
       throw error).

Definition checkApiHealth_request (base : string) : Request :=
  {| url := base ++ "/health";
     method := "GET";
     headers := json_headers;
     body := None |}.

(** Check if the API is available. *)
Definition checkApiHealth : M JSON :=
  tryCatch
    (base <- read_API_BASE_URL ;;
     response <- fetch (checkApiHealth_request base) ;;
     if negb (ok response) then throw (new_Error "API health check failed")
     else
       health <- liftE (json response) ;;
       console_log [LStr "✅ API is healthy:"; LJson health] ;;
       ret health)
    (fun error =>
       console_error [LStr "❌ API health check failed:"; LErr error] ;;
       throw error).

(** [localStorage.getItem(key)] *)
Definition localStorage_get (key : string) : M (option string) :=
  fun w => (localStorage_getItem (host w) key, record (StorageRead key) w).

(** Get the current user ID: the stored one when it is a non-empty string,
    the test user otherwise. *)
Definition getCurrentUserId : M string :=
  storedUserId <- localStorage_get "ctrlaltcode_user_id" ;;
  if truthy (option_map JStr storedUserId) then
    ret (match storedUserId with Some s => s | None => "" end)
  else ret "test-user".



(* ================================================================== *)
(** * Cloud save button helpers *)
(* ================================================================== *)

(** Convert Uint8Array to Base64 string using MakeCode's encoding. *)
Definition uint8ArrayToBase64 (uint8Array : list Byte.byte) : Exn + string :=
  ts_pxtc_encodeBase64 (pxt_Util_uint8ArrayToString uint8Array).

(** Convert Base64 string back to Uint8Array using MakeCode's decoding. *)
Definition base64ToUint8Array (base64 : string) : Exn + list Byte.byte :=
  match ts_pxtc_decodeBase64 base64 with
  | inl e => inl e
  | inr decoded => inr (pxt_Util_stringToUint8Array decoded)
  end.

(** Main handler for custom save with project data. *)
Definition handleCloudSaveWithData (projectName : string)
  (projectData : list Byte.byte) : M unit :=
  console_log [LStr "🎮 Cloud Save Initiated"] ;;
  tryCatch
    (base64Data <- liftE (uint8ArrayToBase64 projectData) ;;
     console_log [LStr "🔐 Base64 Size:"; LNum (String.length base64Data);
                  LStr "characters"] ;;
     userId <- getCurrentUserId ;;
     result <- saveProject userId projectName base64Data ;;
     console_log [LStr "✅ Project saved to cloud:"; LJson result] ;;
     core_infoNotification
       (lf "Project '{0}' saved to cloud!" [LfStr projectName]))
    (fun error =>
       let errorMsg := errorMsg error in
       console_error [LStr "❌ Error saving to cloud:"; LErr error] ;;
       core_errorNotification
         (lf "Failed to save '{0}': {1}" [LfStr projectName; LfStr errorMsg]) ;;
       throw error).

End Client.

(* ================================================================== *)
(** * syncFromCloud.ts *)
(* ================================================================== *)

Section Sync.
Context {H : Host}.

(** [workspace.getHeaders(false)] *)
Definition getHeaders : M (list Header) :=
  fun w => (inr (workspace_getHeaders (host w)), record GetHeadersCall w).

(** [await workspace.installAsync(installHeader, text)] *)
Definition installAsync (h : InstallHeader) (text : JSON) : M Header :=
  fun w =>
    let r := workspace_installAsync (host w) h text in
    (fst r, with_host (snd r) (record (InstallCall h text) w)).

(** [if (typeof window.refreshWorkspace === 'function')
       window.refreshWorkspace()] *)
Definition refreshWorkspace : M unit :=
  fun w =>
    match window_refreshWorkspace (host w) with
    | None => (inr tt, w)
    | Some r => (fst r, with_host (snd r) (record RefreshCall w))
    end.

Definition unknown_format_message : string :=
  "Invalid project structure: expected 'source' or 'text' property".

Definition missing_config_message : string :=
  "Invalid project structure: missing '" ++ pxt_CONFIG_NAME ++ "' file".

(** Steps 1 to 3: Base64 to Uint8Array, LZMA decompression, JSON.parse. *)
Definition decodePayload (cloudData : CloudProjectData) : M JSON :=
  uint8Array <- liftE (base64ToUint8Array (cloud_projectData cloudData)) ;;
  decompressedJson <- liftE (pxt_lzmaDecompressAsync uint8Array) ;;
  parseJSON (Some (JStr decompressedJson)).

(** "Handle different project formats": the file map [text] and the
    [header] of a parsed payload. *)
Definition readFormat (projectData : JSON) : M (JSON * JSval) :=
  source <- liftE (Get projectData "source") ;;
  if truthy source && (typeof source =? "string") then
    (* Format 1: Has 'source' property (JSON string of files) *)
    text <- parseJSON source ;;
    header <- liftE (Get projectData "meta") ;;
    ret (text, header)
  else
    text <- liftE (Get projectData "text") ;;
    if truthy text && (typeof text =? "object") then
      (* Format 2: Has 'text' property (object of files) *)
      header <- liftE (Get projectData "header") ;;
      ret (match text with Some t => t | None => JNull end, header)
    else
      console_error [LStr "❌ Unknown project format!"] ;;
      console_error [LStr "   Project keys:"; LKeys (Object_keys projectData)] ;;
      console_error [LStr "   Project structure:"; LJson projectData] ;;
      throw (new_Error unknown_format_message).

(** "Validate we have the required files"; returns [text[pxt.CONFIG_NAME]]. *)
Definition requireConfig (text : JSON) : M JSval :=
  configText <- liftE (Get text pxt_CONFIG_NAME) ;;
  if negb (truthy configText) then throw (new_Error missing_config_message)
  else ret configText.

(** Step 5, first half: the header handed to the workspace store. *)
Definition prepareInstallHeader (cloudData : CloudProjectData)
  (config : JSON) (header : JSval) : M InstallHeader :=
  preferredEditor <- liftE (Get config "preferredEditor") ;;
  ret {| target := pxt_appTarget_id;
         targetVersion :=
           or_else (optGet (optGet header "targetVersions") "target")
                   (optGet header "targetVersion");
         editor :=
           or_else (or_else preferredEditor (optGet header "editor"))
                   (Some (JStr pxt_BLOCKS_PROJECT_NAME));
         name := cloud_projectName cloudData;
         meta := or_else (optGet header "meta") (Some (JObj []));
         pubId := or_else (optGet header "pubId") (Some (JStr ""));
         pubCurrent := false |}.

(** Steps 1 to 3 and the two format checks: the file map, the header and
    the text of the configuration file. *)
Definition validatePayload (cloudData : CloudProjectData)
  : M (JSON * JSval * JSval) :=
  projectData <- decodePayload cloudData ;;
  format <- readFormat projectData ;;
  configText <- requireConfig (fst format) ;;
  ret (fst format, snd format, configText).

(** Steps 4 and 5: the collision check and the installation. *)
Definition installUnlessLocal (cloudData : CloudProjectData)
  (text : JSON) (header configText : JSval) : M bool :=
  (* Step 4: Check if project already exists locally *)
  existingHeaders <- getHeaders ;;
  let existingProject :=
    find (fun h => header_name h =? cloud_projectName cloudData)
         existingHeaders in
  match existingProject with
  | Some _ =>
      console_log [LStr ("⚠️  Project " ++ String dquote
                         (cloud_projectName cloudData ++ String dquote
                          " already exists locally"))] ;;
      console_log [LStr "   Local files trump cloud files - skipping import"] ;;
      ret false
  | None =>
      (* Step 5: Prepare header for installation *)
      config <- parseJSON configText ;;
      installHeader <- prepareInstallHeader cloudData config header ;;
      installedHeader <- installAsync installHeader text ;;
      console_log [LStr ("✅ Successfully imported project: "
                         ++ cloud_projectName cloudData)] ;;
      refreshWorkspace ;;
      ret true
  end.

(** The body of the try block of importCloudProject. *)
Definition importCloudProject_try (cloudData : CloudProjectData) : M bool :=
  valid <- validatePayload cloudData ;;
  installUnlessLocal cloudData (fst (fst valid)) (snd (fst valid)) (snd valid).

(** Import a single project from cloud data. *)
Definition importCloudProject (cloudData : CloudProjectData) : M bool :=
  console_log [LStr ("📥 Importing project: " ++ cloud_projectName cloudData)] ;;
  tryCatch (importCloudProject_try cloudData)
    (fun error =>
       let errorMsg := errorMsg error in
       console_error [LStr ("❌ Failed to import project " ++ String dquote
                            (cloud_projectName cloudData ++ String dquote ":"));
                      LErr error] ;;
       core_errorNotification
         (lf "Failed to import '{0}': {1}"
             [LfStr (cloud_projectName cloudData); LfStr errorMsg]) ;;
       throw error).

(** The importer's input built from a full record (lines 48 to 52). *)
Definition cloudDataOf (fullProject : DbProjectRecord) : CloudProjectData :=
  {| cloud_projectName := projectName fullProject;
     cloud_projectData := projectData fullProject;
     cloud_createdAt := createdAt fullProject |}.

(** Lines 45 to 54 of the loop body: fetch the full record and import it. *)
Definition fetchAndImport (userId : string) (projectInfo : DbProjectListItem)
  : M bool :=
  fullProject <- getProject (item_id projectInfo) userId ;;
  let cloudData := cloudDataOf fullProject in
  importCloudProject cloudData.

(** One turn of the for loop: the inner try and catch, which yields the
    counters after the turn. *)
Definition syncOne (userId : string) (projectInfo : DbProjectListItem)
  (importedCount skippedCount : nat) : M (nat * nat) :=
  tryCatch
    (wasImported <- fetchAndImport userId projectInfo ;;
     if wasImported then ret (S importedCount, skippedCount)
     else ret (importedCount, S skippedCount))
    (fun error =>
       console_error [LStr ("❌ Failed to import project "
                            ++ project_name projectInfo ++ ":"); LErr error] ;;
       (* Continue with other projects *)
       ret (importedCount, skippedCount)).

(** [for (const projectInfo of cloudProjects) { ... }] *)
Fixpoint syncLoop (userId : string) (cloudProjects : list DbProjectListItem)
  (importedCount skippedCount : nat) : M (nat * nat) :=
  match cloudProjects with
  | [] => ret (importedCount, skippedCount)
  | projectInfo :: rest =>
      counts <- syncOne userId projectInfo importedCount skippedCount ;;
      syncLoop userId rest (fst counts) (snd counts)
  end.

(** Lines 31 to 72: what syncFromCloud does with the list of projects. *)
Definition syncProjects (userId : string)
  (cloudProjects : list DbProjectListItem) : M unit :=
  if Nat.eqb (List.length cloudProjects) 0 then
    console_log [LStr "📭 No cloud projects found"] ;;
    core_infoNotification (lf "No cloud projects to sync" [])
  else
    console_log [LStr ("📦 Found " ++ string_of_nat (List.length cloudProjects)
                       ++ " cloud projects")] ;;
    counts <- syncLoop userId cloudProjects 0 0 ;;
    let importedCount := fst counts in
    let skippedCount := snd counts in
    console_log [LStr ("✅ Cloud sync complete! Imported: "
                       ++ string_of_nat importedCount ++ ", Skipped: "
                       ++ string_of_nat skippedCount)] ;;
    if Nat.ltb 0 importedCount then
      core_infoNotification
        (lf "Synced {0} project(s) from cloud" [LfNum importedCount])
    else if Nat.ltb 0 skippedCount then
      core_infoNotification
        (lf "All {0} cloud project(s) already exist locally" [LfNum skippedCount])
    else ret tt.

(** The body of the try block of syncFromCloud. *)
Definition syncFromCloud_try : M unit :=
  userId <- getCurrentUserId ;;
  cloudProjects <- getUserProjects userId ;;
  syncProjects userId cloudProjects.

(** Sync projects from cloud to local workspace. *)
Definition syncFromCloud : M unit :=
  console_log [LStr "🔄 Starting cloud sync..."] ;;
  tryCatch syncFromCloud_try
    (fun error =>
       let errorMsg := errorMsg error in
       console_error [LStr "❌ Cloud sync failed:"; LErr error] ;;
       core_errorNotification (lf "Cloud sync failed: {0}" [LfStr errorMsg])).

End Sync.

(* ================================================================== *)
(** * Vocabulary of the properties *)
(* ================================================================== *)

Section Observations.
Context {H : Host}.

(** Classes of events. *)
Definition is_notification (e : Event) : bool :=
  match e with
  | InfoNotification _ | ErrorNotification _ => true
  | _ => false
  end.

Definition is_fetch (e : Event) : bool :=
  match e with FetchCall _ => true | _ => false end.

Definition is_install (e : Event) : bool :=
  match e with InstallCall _ _ => true | _ => false end.

Definition is_workspace_call (e : Event) : bool :=
  match e with GetHeadersCall | InstallCall _ _ => true | _ => false end.

Definition notifications (tr : list Event) : list Event :=
  filter is_notification tr.

(** [quiet p m]: running [m] only appends to the trace, appends no event of
    class [p], and leaves the base URL as it was. *)
Definition quiet (p : Event -> bool) {A} (m : M A) : Prop :=
  forall w,
    API_BASE_URL (snd (m w)) = API_BASE_URL w /\
    exists evs, trace (snd (m w)) = trace w ++ evs /\ filter p evs = [].

(** The notification importCloudProject issues when it fails. *)
Definition importFailureNotice (projectName : string) (e : Exn) : Event :=
  ErrorNotification
    (lf "Failed to import '{0}': {1}" [LfStr projectName; LfStr (errorMsg e)]).

(** How one turn of the sync loop ends. *)
Inductive Turn : Type :=
| FetchFailed (e : Exn)
| ImportFailed (projectName : string) (e : Exn)
| WasImported
| WasSkipped.

Definition turn (userId : string) (projectInfo : DbProjectListItem)
  (w : World) : Turn :=
  match getProject (item_id projectInfo) userId w with
  | (inl e, _) => FetchFailed e
  | (inr fullProject, w1) =>
      match importCloudProject (cloudDataOf fullProject) w1 with
      | (inl e, _) => ImportFailed (projectName fullProject) e
      | (inr true, _) => WasImported
      | (inr false, _) => WasSkipped
      end
  end.

(** The turns of a run of the loop from world [w], one per list entry. *)
Fixpoint turns (userId : string) (cloudProjects : list DbProjectListItem)
  (w : World) : list Turn :=
  match cloudProjects with
  | [] => []
  | projectInfo :: rest =>
      turn userId projectInfo w
        :: turns userId rest (snd (syncOne userId projectInfo 0 0 w))
  end.

Definition was_imported (t : Turn) : bool :=
  match t with WasImported => true | _ => false end.

Definition was_skipped (t : Turn) : bool :=
  match t with WasSkipped => true | _ => false end.

(** Fetch and import both succeeded. *)
Definition succeeded (t : Turn) : bool := was_imported t || was_skipped t.


(** The user's projects as syncFromCloud obtains them (lines 26 and 29). *)
Definition listing : M (string * list DbProjectListItem) :=
  userId <- getCurrentUserId ;;
  cloudProjects <- getUserProjects userId ;;
  ret (userId, cloudProjects).


(** The first console line of syncFromCloud. *)
Definition starting : Event := ConsoleLog [LStr "🔄 Starting cloud sync..."].





(** The five transport operations. *)
Inductive Operation : Type :=
| OpSaveProject (userId projectName projectData : string)
| OpGetUserProjects (userId : string)
| OpGetProject (projectId : Z) (userId : string)
| OpUpdateProject (projectId : Z) (userId : string)
    (projectName projectData : option string)
| OpDeleteProject (projectId : Z) (userId : string).

Definition requestOf (base : string) (op : Operation) : Request :=
  match op with
  | OpSaveProject u n d => saveProject_request base u n d
  | OpGetUserProjects u => getUserProjects_request base u
  | OpGetProject i u => getProject_request base i u
  | OpUpdateProject i u n d => updateProject_request base i u n d
  | OpDeleteProject i u => deleteProject_request base i u
  end.

Definition defaultMessage (op : Operation) : string :=
  match op with
  | OpSaveProject _ _ _ => "Failed to save project"
  | OpGetUserProjects _ => "Failed to fetch projects"
  | OpGetProject _ _ => "Failed to fetch project"
  | OpUpdateProject _ _ _ _ => "Failed to update project"
  | OpDeleteProject _ _ => "Failed to delete project"
  end.

(** Runs an operation and keeps only whether it failed. *)
Definition call (op : Operation) : M unit :=
  match op with
  | OpSaveProject u n d => saveProject u n d ;; ret tt
  | OpGetUserProjects u => getUserProjects u ;; ret tt
  | OpGetProject i u => getProject i u ;; ret tt
  | OpUpdateProject i u n d => updateProject i u n d ;; ret tt
  | OpDeleteProject i u => deleteProject i u ;; ret tt
  end.

(** The common shape of the five transport operations. *)
Definition transport {A} (request : string -> Request) (fallback : string)
  (onSuccess : JSON -> M A) (label : string) : M A :=
  tryCatch
    (base <- read_API_BASE_URL ;;
     response <- fetch (request base) ;;
     if negb (ok response) then throwApiError response fallback
     else
       received <- liftE (json response) ;;
       onSuccess received)
    (fun error => console_error [LStr label; LErr error] ;; throw error).

(** What an unsuccessful response makes an operation throw. *)
Definition apiFailure (response : Response) (fallback : string) : Exn :=
  match json response with
  | inl parseError => parseError
  | inr error =>
      match Get error "error" with
      | inl typeError => typeError
      | inr message => new_Error (ToStr (or_else message (Some (JStr fallback))))
      end
  end.

(** [v] is a string other than the empty one. *)
Definition is_nonempty_string (v : JSval) : bool :=
  match v with
  | Some (JStr s) => negb (s =? "")
  | _ => false
  end.

(** [v] is an object or an array (and so not null). *)
Definition is_object (v : JSval) : bool :=
  match v with
  | Some (JObj _) | Some (JArr _) => true
  | _ => false
  end.

(** The own property [k] of a parsed value. *)
Definition field (v : JSON) (k : string) : JSval :=
  optGet (Some v) k.

(** The step of importCloudProject at which an import fails, with the
    error of that step. *)
Inductive StepFailure (cloudData : CloudProjectData) (w : World)
  : Exn -> Prop :=
| base64_fails e :
    ts_pxtc_decodeBase64 (cloud_projectData cloudData) = inl e ->
    StepFailure cloudData w e
| decompression_fails bytes e :
    base64ToUint8Array (cloud_projectData cloudData) = inr bytes ->
    pxt_lzmaDecompressAsync bytes = inl e ->
    StepFailure cloudData w e
| json_parsing_fails bytes decompressedJson m :
    base64ToUint8Array (cloud_projectData cloudData) = inr bytes ->
    pxt_lzmaDecompressAsync bytes = inr decompressedJson ->
    JSON_parse decompressedJson = inl m ->
    StepFailure cloudData w (JsError "SyntaxError" m)
| format_validation_fails projectData e :
    fst (decodePayload cloudData w) = inr projectData ->
    fst ((format <- readFormat projectData ;; requireConfig (fst format)) w)
      = inl e ->
    StepFailure cloudData w e
| config_parsing_fails text header configText m :
    fst (validatePayload cloudData w) = inr (text, header, configText) ->
    find (fun h => header_name h =? cloud_projectName cloudData)
         (workspace_getHeaders (host w)) = None ->
    JSON_parse (ToStr configText) = inl m ->
    StepFailure cloudData w (JsError "SyntaxError" m)
| installation_fails text header configText config installHeader e :
    fst (validatePayload cloudData w) = inr (text, header, configText) ->
    find (fun h => header_name h =? cloud_projectName cloudData)
         (workspace_getHeaders (host w)) = None ->
    JSON_parse (ToStr configText) = inr config ->
    fst (prepareInstallHeader cloudData config header w) = inr installHeader ->
    fst (workspace_installAsync (host w) installHeader text) = inl e ->
    StepFailure cloudData w e.

(** The events of an import that is skipped for a local project. *)
Definition skippedImportTrace (projectName : string) : list Event :=
  [ConsoleLog [LStr ("📥 Importing project: " ++ projectName)];
   GetHeadersCall;
   ConsoleLog [LStr ("⚠️  Project " ++ String dquote
                      (projectName ++ String dquote " already exists locally"))];
   ConsoleLog [LStr "   Local files trump cloud files - skipping import"]].

(** The file map of a parsed payload, by the two recognized formats: the
    JSON text held by a non-empty string [source], or else the object (or
    array) held by [text]. *)
Inductive FileMap (projectData : JSON) : JSON -> Prop :=
| format1 s text :
    field projectData "source" = Some (JStr s) ->
    s <> "" ->
    JSON_parse s = inr text ->
    FileMap projectData text
| format2 text :
    is_nonempty_string (field projectData "source") = false ->
    field projectData "text" = Some text ->
    is_object (Some text) = true ->
    FileMap projectData text.

(** The payload matches neither format. *)
Definition UnknownFormat (projectData : JSON) : Prop :=
  projectData <> JNull /\
  is_nonempty_string (field projectData "source") = false /\
  is_object (field projectData "text") = false.

(** The payload matches a format and its file map holds nothing, or a
    falsy value such as the empty string, under the configuration name. *)
Definition MissingConfig (projectData : JSON) : Prop :=
  exists text,
    FileMap projectData text /\ text <> JNull /\
    truthy (field text pxt_CONFIG_NAME) = false.

(** The two cases in the wording "neither a string-valued source field nor
    an object-valued text field" and "matches one of the two shapes but the
    file map has no entry under the reserved name". *)
Definition NeitherField (projectData : JSON) : Prop :=
  (forall s, field projectData "source" <> Some (JStr s)) /\
  is_object (field projectData "text") = false.

Definition NoConfigEntry (projectData : JSON) : Prop :=
  exists text,
    ((exists s, field projectData "source" = Some (JStr s)
                /\ JSON_parse s = inr text)
     \/ (field projectData "text" = Some text /\ is_object (Some text) = true))
    /\ field text pxt_CONFIG_NAME = None.

(** The first console line of importCloudProject. *)
Definition importing (cloudData : CloudProjectData) : Event :=
  ConsoleLog [LStr ("📥 Importing project: " ++ cloud_projectName cloudData)].

(** The console line of the catch block of importCloudProject. *)
Definition importFailureLog (cloudData : CloudProjectData) (e : Exn) : Event :=
  ConsoleError [LStr ("❌ Failed to import project " ++ String dquote
                      (cloud_projectName cloudData ++ String dquote ":"));
                LErr e].

(** The console line of the catch block of the sync loop. *)
Definition turnFailureLog (projectInfo : DbProjectListItem) (e : Exn) : Event :=
  ConsoleError [LStr ("❌ Failed to import project "
                      ++ project_name projectInfo ++ ":"); LErr e].





(** An error object that is not a plain Error (a TypeError, a SyntaxError). *)
Definition foreign (e : Exn) : Prop :=
  exists n m, e = JsError n m /\ n <> "Error".



End Observations.

Section SaveDefs.
Context {H : Host}.

(** The first console line of handleCloudSaveWithData. *)
Definition saveInitiated : Event := ConsoleLog [LStr "🎮 Cloud Save Initiated"].

(** Lines 319 to 326 of handleCloudSaveWithData: encode, look the user up,
    save. *)
Definition saveAttempt (projectName : string) (projectData : list Byte.byte)
  : M JSON :=
  base64Data <- liftE (uint8ArrayToBase64 projectData) ;;
  console_log [LStr "🔐 Base64 Size:"; LNum (String.length base64Data);
               LStr "characters"] ;;
  userId <- getCurrentUserId ;;
  saveProject userId projectName base64Data.

(** The two notifications of handleCloudSaveWithData. *)
Definition savedNotice (projectName : string) : Event :=
  InfoNotification (lf "Project '{0}' saved to cloud!" [LfStr projectName]).

Definition saveFailureNotice (projectName : string) (e : Exn) : Event :=
  ErrorNotification
    (lf "Failed to save '{0}': {1}" [LfStr projectName; LfStr (errorMsg e)]).

End SaveDefs.

(* ================================================================== *)
(** * A concrete host *)
(* ================================================================== *)

(** A small browser, server and workspace store on which the code runs by
    computation.  Its Base64 codec and its decompression store the text
    as it is; its JSON.parse knows the documents below; its workspace
    store is the list of installed headers. *)
Module Sample.

Definition q (s : string) : string := String dquote (s ++ String dquote "").

(** { "text": { "pxt.json": "{}" }, "header": {} } *)
Definition goodText : string :=
  "{" ++ q "text" ++ ":{" ++ q "pxt.json" ++ ":" ++ q "{}" ++ "},"
      ++ q "header" ++ ":{}}".
Definition goodPayload : JSON :=
  JObj [("text", JObj [("pxt.json", JStr "{}")]); ("header", JObj [])].

(** { "source": "" } *)
Definition emptySourceText : string := "{" ++ q "source" ++ ":" ++ q "" ++ "}".
Definition emptySourcePayload : JSON := JObj [("source", JStr "")].

(** { "text": { "pxt.json": "" } } *)
Definition emptyConfigText : string :=
  "{" ++ q "text" ++ ":{" ++ q "pxt.json" ++ ":" ++ q "" ++ "}}".
Definition emptyConfigPayload : JSON :=
  JObj [("text", JObj [("pxt.json", JStr "")])].

(** { "files": {} } *)
Definition noShapeText : string := "{" ++ q "files" ++ ":{}}".
Definition noShapePayload : JSON := JObj [("files", JObj [])].

(** { "text": { "main.ts": "" } } *)
Definition noConfigText : string :=
  "{" ++ q "text" ++ ":{" ++ q "main.ts" ++ ":" ++ q "" ++ "}}".
Definition noConfigPayload : JSON := JObj [("text", JObj [("main.ts", JStr "")])].

Definition parse (s : string) : string + JSON :=
  if s =? goodText then inr goodPayload
  else if s =? emptySourceText then inr emptySourcePayload
  else if s =? emptyConfigText then inr emptyConfigPayload
  else if s =? noShapeText then inr noShapePayload
  else if s =? noConfigText then inr noConfigPayload
  else if s =? "{}" then inr (JObj [])
  else if s =? "null" then inr JNull
  else inl ("Unexpected token in JSON: " ++ s)%string.

Definition number_toString (f : spec_float) : string :=
  match f with
  | S754_zero _ => "0"
  | S754_finite false m 0 => NilZero.string_of_uint (Pos.to_uint m)
  | S754_finite true m 0 => "-" ++ NilZero.string_of_uint (Pos.to_uint m)
  | _ => "NaN"
  end.

Definition integer (v : JSval) : Z :=
  match v with
  | Some (JNum (S754_finite false m 0)) => Z.pos m
  | Some (JNum (S754_finite true m 0)) => Z.neg m
  | _ => 0
  end.

Definition text (v : JSval) : string :=
  match v with
  | Some (JStr s) => s
  | _ => ""
  end.

Definition listItem (v : JSON) : DbProjectListItem :=
  {| item_id := integer (field v "id");
     project_name := text (field v "project_name");
     created_at := text (field v "created_at");
     updated_at := text (field v "updated_at") |}.

Definition listItems (v : JSON) : list DbProjectListItem :=
  match v with
  | JArr items => map listItem items
  | _ => []
  end.

Definition projectRow (v : JSON) : ProjectRow :=
  {| row_id := integer (field v "id");
     row_user_id := text (field v "user_id");
     row_project_name := text (field v "project_name");
     row_project_data := text (field v "project_data");
     row_created_at := option_map (fun _ => text (field v "created_at"))
                         (field v "created_at");
     row_updated_at := option_map (fun _ => text (field v "updated_at"))
                         (field v "updated_at") |}.

Definition install (hs : list Header) (h : InstallHeader) (files : JSON)
  : (Exn + Header) * list Header :=
  let installed := {| header_id := "local-" ++ name h; header_name := name h |} in
  (inr installed, installed :: hs).

(** The host over a server that answers each request by [server]. *)
Definition host_of (server : Request -> Exn + Response) : Host :=
  {| HostState := list Header;
     Number_toString := number_toString;
     JSON_parse := parse;
     encodeURIComponent := fun s => s;
     host_fetch := fun hs req => (server req, hs);
     localStorage_getItem := fun _ _ => inr None;
     window_refreshWorkspace := fun _ => None;
     as_DbProjectListItems := listItems;
     as_ProjectRow := projectRow;
     pxt_CONFIG_NAME := "pxt.json";
     pxt_BLOCKS_PROJECT_NAME := "blocksprj";
     pxt_appTarget_id := "arcade";
     ts_pxtc_encodeBase64 := fun s => inr s;
     ts_pxtc_decodeBase64 := fun s => inr s;
     pxt_Util_uint8ArrayToString := string_of_list_byte;
     pxt_Util_stringToUint8Array := list_byte_of_string;
     pxt_lzmaDecompressAsync := fun bytes => inr (string_of_list_byte bytes);
     workspace_getHeaders := fun hs => hs;
     workspace_installAsync := install |}.

Definition base : string := "http://localhost:3001".

Definition world (server : Request -> Exn + Response) (hs : list Header)
  : @World (host_of server) :=
  {| host := (hs : @HostState (host_of server));
     API_BASE_URL := base; trace := [] |}.




Definition listUrl : string := base ++ "/api/projects/user/test-user".

(** A server that is down: no request gets a response. *)
Definition offline (req : Request) : Exn + Response :=
  inl (JsError "TypeError" "Failed to fetch").

(** A server behind a proxy that answers 502 with an HTML page. *)
Definition badGateway (req : Request) : Exn + Response :=
  inr {| ok := false;
         json := inl (JsError "SyntaxError" "Unexpected token < in JSON at position 0") |}.

(** A server that answers 404 with { "error": "Project not found" }. *)
Definition notFound (req : Request) : Exn + Response :=
  inr {| ok := false; json := inr (JObj [("error", JStr "Project not found")]) |}.

(** A server whose user has no project. *)
Definition emptyServer (req : Request) : Exn + Response :=
  if url req =? listUrl then inr {| ok := true; json := inr (JArr []) |}
  else notFound req.



(** The workspace with a local project "Alpha", and the empty one. *)
Definition alphaInstalled : @World (host_of offline) :=
  world offline [{| header_id := "local-1"; header_name := "Alpha" |}].

Definition freshWorkspace : @World (host_of offline) := world offline [].

(** The empty workspace in front of each of the servers. *)
Definition emptyCloud : @World (host_of emptyServer) := world emptyServer [].

Definition cloud (projectName payload : string) : CloudProjectData :=
  {| cloud_projectName := projectName; cloud_projectData := payload;
     cloud_createdAt := None |}.

(** A server that answers every request with status 200 and an HTML page. *)
Definition htmlPage (req : Request) : Exn + Response :=
  inr {| ok := true;
         json := inl (JsError "SyntaxError" "Unexpected token < in JSON at position 0") |}.

(** The host of a page whose storage cannot be read (localStorage throws a
    SecurityError), in front of a server that is down. *)
Definition host_without_storage : Host :=
  {| HostState := list Header;
     Number_toString := number_toString;
     JSON_parse := parse;
     encodeURIComponent := fun s => s;
     host_fetch := fun hs req => (offline req, hs);
     localStorage_getItem :=
       fun _ _ => inl (JsError "SecurityError" "The operation is insecure.");
     window_refreshWorkspace := fun _ => None;
     as_DbProjectListItems := listItems;
     as_ProjectRow := projectRow;
     pxt_CONFIG_NAME := "pxt.json";
     pxt_BLOCKS_PROJECT_NAME := "blocksprj";
     pxt_appTarget_id := "arcade";
     ts_pxtc_encodeBase64 := fun s => inr s;
     ts_pxtc_decodeBase64 := fun s => inr s;
     pxt_Util_uint8ArrayToString := string_of_list_byte;
     pxt_Util_stringToUint8Array := list_byte_of_string;
     pxt_lzmaDecompressAsync := fun bytes => inr (string_of_list_byte bytes);
     workspace_getHeaders := fun hs => hs;
     workspace_installAsync := install |}.

Definition noStorage : @World host_without_storage :=
  {| host := ([] : @HostState host_without_storage);
     API_BASE_URL := base; trace := [] |}.

Definition htmlCloud : @World (host_of htmlPage) := world htmlPage [].
Definition gatewayCloud : @World (host_of badGateway) := world badGateway [].

(** A payload with both a source and a text member. *)
Definition bothFormats : JSON :=
  JObj [("source", JStr "{}");
        ("text", JObj [("pxt.json", JStr "{}")]);
        ("meta", JObj [("editor", JStr "tsprj")])].

(** The bytes of the bundle "{}". *)
Definition emptyBundle : list Byte.byte := [Byte.x7b; Byte.x7d].

End Sample.

(* ================================================================== *)
(** * Running the monad *)
(* ================================================================== *)

Section Laws.
Context {H : Host}.

Lemma bind_inr A B (m : M A) (k : A -> M B) w a w' :
  m w = (inr a, w') -> bind m k w = k a w'.
Proof. intros E. unfold bind. now rewrite E. Qed.

Lemma bind_inl A B (m : M A) (k : A -> M B) w e w' :
  m w = (inl e, w') -> bind m k w = (inl e, w').
Proof. intros E. unfold bind. now rewrite E. Qed.

Lemma tryCatch_inr A (m : M A) handler w a w' :
  m w = (inr a, w') -> tryCatch m handler w = (inr a, w').
Proof. intros E. unfold tryCatch. now rewrite E. Qed.

Lemma tryCatch_inl A (m : M A) handler w e w' :
  m w = (inl e, w') -> tryCatch m handler w = handler e w'.
Proof. intros E. unfold tryCatch. now rewrite E. Qed.

Lemma filter_record p e w :
  filter p (trace (record e w)) = filter p (trace w) ++ (if p e then [e] else []).
Proof. unfold record; simpl. rewrite filter_app. simpl. now destruct (p e). Qed.

Lemma quiet_filter p A (m : M A) w :
  quiet p m -> filter p (trace (snd (m w))) = filter p (trace w).
Proof.
  intros Hq. destruct (Hq w) as [_ [evs [E F]]].
  rewrite E, filter_app, F. apply app_nil_r.
Qed.

Lemma quiet_ret p A (a : A) : quiet p (ret a).
Proof. intros w; split; [reflexivity | exists []; simpl; now rewrite app_nil_r]. Qed.

Lemma quiet_throw p A e : quiet p (@throw H A e).
Proof. intros w; split; [reflexivity | exists []; simpl; now rewrite app_nil_r]. Qed.

Lemma quiet_liftE p A (r : Exn + A) : quiet p (liftE r).
Proof. intros w; split; [reflexivity | exists []; simpl; now rewrite app_nil_r]. Qed.

Lemma quiet_bind p A B (m : M A) (k : A -> M B) :
  quiet p m -> (forall a, quiet p (k a)) -> quiet p (bind m k).
Proof.
  intros Hm Hk w. unfold bind.
  destruct (Hm w) as [Hb [evs [Ht Hf]]].
  destruct (m w) as [[e | a] w']; simpl in *.
  - split; [assumption | now exists evs].
  - destruct (Hk a w') as [Hb' [evs' [Ht' Hf']]]. split; [congruence | ].
    exists (evs ++ evs'). rewrite Ht', Ht, app_assoc, filter_app, Hf, Hf'.
    now split.
Qed.

Lemma quiet_tryCatch p A (m : M A) handler :
  quiet p m -> (forall e, quiet p (handler e)) -> quiet p (tryCatch m handler).
Proof.
  intros Hm Hh w. unfold tryCatch.
  destruct (Hm w) as [Hb [evs [Ht Hf]]].
  destruct (m w) as [[e | a] w']; simpl in *.
  - destruct (Hh e w') as [Hb' [evs' [Ht' Hf']]]. split; [congruence | ].
    exists (evs ++ evs'). rewrite Ht', Ht, app_assoc, filter_app, Hf, Hf'.
    now split.
  - split; [assumption | now exists evs].
Qed.

Lemma quiet_one p e (w : World) h :
  p e = false ->
  API_BASE_URL (with_host h (record e w)) = API_BASE_URL w /\
  exists evs, trace (with_host h (record e w)) = trace w ++ evs /\
              filter p evs = [].
Proof.
  intros Hp. split; [reflexivity | ]. exists [e]. simpl. now rewrite Hp.
Qed.

Lemma quiet_emit p e : p e = false -> quiet p (emit e).
Proof. intros Hp w. now apply (quiet_one _ _ w (host w)). Qed.

Lemma quiet_fetch p req : p (FetchCall req) = false -> quiet p (fetch req).
Proof. intros Hp w. unfold fetch; cbn [snd]. now apply quiet_one. Qed.

Lemma quiet_read_API_BASE_URL p : quiet p read_API_BASE_URL.
Proof. intros w; split; [reflexivity | exists []; simpl; now rewrite app_nil_r]. Qed.

Lemma quiet_parseJSON p v : quiet p (parseJSON v).
Proof.
  unfold parseJSON. destruct (JSON_parse (ToStr v)).
  - apply quiet_throw.
  - apply quiet_ret.
Qed.

Lemma quiet_localStorage_get p key :
  p (StorageRead key) = false -> quiet p (localStorage_get key).
Proof. intros Hp w. now apply (quiet_one _ _ w (host w)). Qed.

Lemma quiet_getHeaders p : p GetHeadersCall = false -> quiet p getHeaders.
Proof. intros Hp w. now apply (quiet_one _ _ w (host w)). Qed.

Lemma quiet_installAsync p h text :
  p (InstallCall h text) = false -> quiet p (installAsync h text).
Proof. intros Hp w. unfold installAsync; cbn [snd]. now apply quiet_one. Qed.

Lemma quiet_refreshWorkspace p : p RefreshCall = false -> quiet p refreshWorkspace.
Proof.
  intros Hp w. unfold refreshWorkspace.
  destruct (window_refreshWorkspace (host w)); cbn [snd].
  - now apply quiet_one.
  - split; [reflexivity | exists []; simpl; now rewrite app_nil_r].
Qed.

End Laws.

(** Decomposes a [quiet] goal along the structure of the program. *)
Ltac quiet_step :=
  match goal with
  | |- quiet _ (bind _ _) => apply quiet_bind; [ | intros ]
  | |- quiet _ (tryCatch _ _) => apply quiet_tryCatch; [ | intros ]
  | |- quiet _ (ret _) => apply quiet_ret
  | |- quiet _ (throw _) => apply quiet_throw
  | |- quiet _ (liftE _) => apply quiet_liftE
  | |- quiet _ (parseJSON _) => apply quiet_parseJSON
  | |- quiet _ read_API_BASE_URL => apply quiet_read_API_BASE_URL
  | |- quiet _ (emit _) => apply quiet_emit; reflexivity
  | |- quiet _ (fetch _) => apply quiet_fetch; reflexivity
  | |- quiet _ (localStorage_get _) => apply quiet_localStorage_get; reflexivity
  | |- quiet _ getHeaders => apply quiet_getHeaders; reflexivity
  | |- quiet _ (installAsync _ _) => apply quiet_installAsync; reflexivity
  | |- quiet _ refreshWorkspace => apply quiet_refreshWorkspace; reflexivity
  | |- quiet _ (if ?b then _ else _) => destruct b
  | |- quiet _ (match ?x with _ => _ end) => destruct x
  | |- quiet _ (let _ := _ in _) => cbv zeta
  end.

Ltac quiet_tac :=
  unfold console_log, console_error, core_infoNotification,
    core_errorNotification, throwApiError;
  repeat quiet_step.

(* ================================================================== *)
(** * The serialization reads back *)
(* ================================================================== *)

Lemma string_app_assoc (a b c : string) : ((a ++ b) ++ c = a ++ (b ++ c))%string.
Proof. induction a as [ | x a IH]; cbn; [reflexivity | now rewrite IH]. Qed.

Lemma string_length_app (a b : string) :
  String.length (a ++ b) = String.length a + String.length b.
Proof. induction a as [ | x a IH]; cbn; [reflexivity | now rewrite IH]. Qed.

Lemma readChars_quoteChar c tail :
  readChars (quoteChar c ++ tail) = consChar (Some c) (readChars tail).
Proof.
  destruct c as [[ | ] [ | ] [ | ] [ | ] [ | ] [ | ] [ | ] [ | ]]; reflexivity.
Qed.

Lemma readChars_quoteChars s rest :
  readChars (quoteChars s ++ String dquote rest) = Some (s, rest).
Proof.
  induction s as [ | c s IH]; [reflexivity | ].
  cbn [quoteChars]. rewrite string_app_assoc, readChars_quoteChar, IH.
  reflexivity.
Qed.

Lemma readString_quote s rest :
  readString (QuoteJSONString s ++ rest) = Some (s, rest).
Proof.
  unfold QuoteJSONString. cbn [append readString].
  change (Ascii.eqb dquote dquote) with true. cbn iota.
  rewrite string_app_assoc. cbn [append]. apply readChars_quoteChars.
Qed.

Lemma readMembers_more fuel : forall s r fuel',
  readMembers fuel s = Some r -> fuel <= fuel' -> readMembers fuel' s = Some r.
Proof.
  induction fuel as [ | fuel IH]; intros s r fuel' E Hle; [discriminate | ].
  destruct fuel' as [ | fuel']; [lia | ].
  cbn [readMembers] in *.
  destruct (readString s) as [[k [ | colon afterColon]] | ]; try discriminate.
  destruct (Ascii.eqb colon ":"); [ | discriminate].
  destruct (readString afterColon) as [[v [ | sep rest]] | ]; try discriminate.
  destruct (Ascii.eqb sep ","); [ | exact E].
  destruct (readMembers fuel rest) as [r' | ] eqn:R; [ | discriminate].
  rewrite (IH rest r' fuel' R); [exact E | lia].
Qed.

Lemma SerializeJSONObject_defined o :
  SerializeJSONObject o = map quoted (definedMembers o).
Proof.
  induction o as [ | [k [v | ]] o IH]; cbn; [reflexivity | | exact IH].
  now rewrite IH.
Qed.

Lemma members_length kvs :
  List.length kvs
    <= String.length (String.concat "," (map member (map quoted kvs))).
Proof.
  induction kvs as [ | kv kvs IH]; [cbn; lia | ].
  destruct kvs as [ | kv' kvs].
  - cbn. lia.
  - change (String.concat "," (map member (map quoted (kv :: kv' :: kvs))))
      with (member (quoted kv) ++ "," ++
            String.concat "," (map member (map quoted (kv' :: kvs))))%string.
    set (tail := String.concat "," (map member (map quoted (kv' :: kvs)))) in *.
    rewrite !string_length_app. cbn [List.length String.length] in *. lia.
Qed.

Lemma readMembers_rendered kvs : forall fuel,
  kvs <> [] ->
  List.length kvs <= fuel ->
  readMembers fuel (String.concat "," (map member (map quoted kvs)) ++ "}")
    = Some kvs.
Proof.
  induction kvs as [ | [k v] kvs IH]; intros fuel Hne Hle; [congruence | ].
  destruct fuel as [ | fuel]; [cbn in Hle; lia | ].
  destruct kvs as [ | kv' kvs].
  - change (String.concat "," (map member (map quoted [(k, v)])))
      with (QuoteJSONString k ++ ":" ++ QuoteJSONString v)%string.
    rewrite !string_app_assoc. cbn [readMembers].
    rewrite readString_quote. cbn [append].
    change (Ascii.eqb ":" ":") with true. cbn iota.
    rewrite readString_quote. reflexivity.
  - change (String.concat "," (map member (map quoted ((k, v) :: kv' :: kvs))))
      with ((QuoteJSONString k ++ ":" ++ QuoteJSONString v) ++ "," ++
            String.concat "," (map member (map quoted (kv' :: kvs))))%string.
    set (tail := String.concat "," (map member (map quoted (kv' :: kvs)))) in *.
    rewrite !string_app_assoc. cbn [readMembers].
    rewrite readString_quote. cbn [append].
    change (Ascii.eqb ":" ":") with true. cbn iota.
    rewrite readString_quote. cbn [append].
    change (Ascii.eqb "," ",") with true. cbn iota.
    rewrite IH; [reflexivity | discriminate | cbn in *; lia].
Qed.

(** JSON.stringify of a flat object reads back as its defined members. *)
Lemma readObject_stringify o :
  readObject (JSON_stringify o) = Some (definedMembers o).
Proof.
  unfold JSON_stringify. rewrite SerializeJSONObject_defined.
  destruct (definedMembers o) as [ | kv kvs] eqn:D; [reflexivity | ].
  cbn [append readObject].
  change (Ascii.eqb "{" "{") with true. cbn iota.
  assert (N : (String.concat "," (map member (map quoted (kv :: kvs))) ++ "}"
               =? "}") = false).
  { cbn [map String.concat]. destruct kvs; reflexivity. }
  rewrite N.
  apply readMembers_rendered; [discriminate | ].
  cbn [String.length]. rewrite string_length_app.
  pose proof (members_length (kv :: kvs)). lia.
Qed.

(* ================================================================== *)
(** * Transport layer *)
(* ================================================================== *)

Section TransportFacts.
Context {H : Host}.

Lemma transport_unsuccessful A request fallback (onSuccess : JSON -> M A)
  label w response :
  fst (host_fetch (host w) (request (API_BASE_URL w))) = inr response ->
  ok response = false ->
  fst (transport request fallback onSuccess label w)
    = inl (apiFailure response fallback).
Proof.
  intros Hf Hok. unfold transport, tryCatch, bind, read_API_BASE_URL, fetch.
  cbn [fst snd]. rewrite Hf, Hok. cbn [negb].
  unfold throwApiError, apiFailure, bind, liftE, throw, console_error, emit.
  destruct (json response) as [e | error]; cbn [fst snd]; [reflexivity | ].
  destruct (Get error "error"); reflexivity.
Qed.

Lemma transport_sends A request fallback (onSuccess : JSON -> M A) label w :
  (forall received, quiet is_fetch (onSuccess received)) ->
  exists evs,
    trace (snd (transport request fallback onSuccess label w)) =
      trace w ++ FetchCall (request (API_BASE_URL w)) :: evs
    /\ filter is_fetch evs = [].
Proof.
  intros Hs. unfold transport.
  unfold tryCatch, bind at 1. unfold read_API_BASE_URL at 1.
  unfold bind at 1, fetch at 1. cbn [fst snd].
  set (req := request _).
  set (w1 := with_host _ _).
  destruct (fst (host_fetch (host w) req)) as [e | response].
  - exists [ConsoleError [LStr label; LErr e]]. split; [ | reflexivity].
    unfold console_error, bind, emit, throw; cbn. now rewrite <- app_assoc.
  - match goal with |- context [match ?m w1 with _ => _ end] =>
      assert (Q : quiet is_fetch
                    (tryCatch m (fun error =>
                       console_error [LStr label; LErr error] ;; throw error)))
    end.
    { quiet_tac. apply Hs. }
    destruct (Q w1) as [_ [evs [E F]]]; unfold tryCatch in E.
    exists evs. split; [ | exact F].
    etransitivity; [exact E | ]. subst w1. cbn. now rewrite <- app_assoc.
Qed.

(** Each operation is an instance of the common shape. *)
Lemma call_transport op :
  exists A (onSuccess : JSON -> M A) label,
    (forall received, quiet is_fetch (onSuccess received)) /\
    call op =
      (transport (fun base => requestOf base op) (defaultMessage op)
                 onSuccess label ;; ret tt).
Proof.
  destruct op; do 3 eexists; (split; [ | reflexivity]); intros; quiet_tac.
Qed.

Lemma apiFailure_message response fallback error :
  json response = inr error ->
  error <> JNull ->
  apiFailure response fallback =
    new_Error (if truthy (field error "error")
               then ToStr (field error "error") else fallback).
Proof.
  intros Hj Hn. unfold apiFailure. rewrite Hj.
  destruct error; try congruence; cbn; try reflexivity.
  unfold or_else. now destruct (truthy (assoc "error" members)).
Qed.

(** C4 (as amended).  When the response of a transport operation has an
    unsuccessful status, the operation fails: with the error of
    [response.json()] itself when the error body is not JSON; with a
    TypeError when the body is the JSON null; otherwise with an Error whose
    message is the body's [error] member when that is truthy and the
    operation's default message when it is not. *)
Theorem unsuccessful_status_failure op w response :
  fst (host_fetch (host w) (requestOf (API_BASE_URL w) op)) = inr response ->
  ok response = false ->
  match json response with
  | inl parseError => fst (call op w) = inl parseError
  | inr JNull => exists m, fst (call op w) = inl (JsError "TypeError" m)
  | inr error =>
      fst (call op w) =
        inl (new_Error (if truthy (field error "error")
                        then ToStr (field error "error")
                        else defaultMessage op))
  end.
Proof.
  intros Hf Hok.
  destruct (call_transport op) as [A [onSuccess [label [_ E]]]]. rewrite E.
  pose proof (transport_unsuccessful (fun base => requestOf base op)
                (defaultMessage op) onSuccess label w Hf Hok) as T.
  assert (R : fst ((transport (fun base => requestOf base op) (defaultMessage op)
                      onSuccess label ;; ret tt) w)
              = inl (apiFailure response (defaultMessage op))).
  { unfold bind.
    destruct (transport _ _ _ _ w) as [[e | a] w']; cbn in *; congruence. }
  rewrite R. clear R T E.
  destruct (json response) as [e | error] eqn:Hj.
  - unfold apiFailure. now rewrite Hj.
  - destruct error;
      try (erewrite apiFailure_message;
           [reflexivity | eassumption | discriminate]).
    unfold apiFailure. rewrite Hj. cbn. eexists. reflexivity.
Qed.

(** C6.  updateProject sends one request, whose body is the serialization
    of { userId, projectName, projectData } and reads back as the object
    with the member userId and, for each of projectName and projectData
    that was given, that member with the given value: no member for an
    omitted argument.  When projectName is omitted the body is the text
    {"userId":U} or {"userId":U,"projectData":D} (U and D the quoted
    values), and likewise when projectData is omitted. *)
Theorem updateProject_omitted_field_absent projectId userId w :
  (forall projectName projectData,
     exists sent evs,
       trace (snd (updateProject projectId userId projectName projectData w)) =
         trace w
         ++ FetchCall
              {| url := API_BASE_URL w ++ "/api/projects/"
                        ++ string_of_number projectId;
                 method := "PUT";
                 headers := json_headers;
                 body := Some sent |}
         :: evs
       /\ filter is_fetch evs = []
       /\ sent = JSON_stringify
                   (updateProject_body userId projectName projectData)
       /\ readObject sent =
            Some (("userId", userId)
                  :: match projectName with
                     | Some n => [("projectName", n)]
                     | None => []
                     end
                  ++ match projectData with
                     | Some d => [("projectData", d)]
                     | None => []
                     end)) /\
  (forall projectData,
     let members :=
       SerializeJSONObject (updateProject_body userId None projectData) in
     ~ In "projectName" (map fst members) /\
     members = ("userId", QuoteJSONString userId)
               :: match projectData with
                  | Some d => [("projectData", QuoteJSONString d)]
                  | None => []
                  end /\
     JSON_stringify (updateProject_body userId None projectData) =
       ("{" ++ QuoteJSONString "userId" ++ ":" ++ QuoteJSONString userId
        ++ match projectData with
           | Some d =>
               "," ++ QuoteJSONString "projectData" ++ ":" ++ QuoteJSONString d
           | None => ""
           end ++ "}")%string) /\
  (forall projectName,
     let members :=
       SerializeJSONObject (updateProject_body userId projectName None) in
     ~ In "projectData" (map fst members) /\
     members = ("userId", QuoteJSONString userId)
               :: match projectName with
                  | Some n => [("projectName", QuoteJSONString n)]
                  | None => []
                  end /\
     JSON_stringify (updateProject_body userId projectName None) =
       ("{" ++ QuoteJSONString "userId" ++ ":" ++ QuoteJSONString userId
        ++ match projectName with
           | Some n =>
               "," ++ QuoteJSONString "projectName" ++ ":" ++ QuoteJSONString n
           | None => ""
           end ++ "}")%string).
Proof.
  split; [ | split].
  - intros projectName projectData.
    destruct (transport_sends
                (fun base => updateProject_request base projectId userId
                               projectName projectData)
                "Failed to update project"
                (fun result =>
                   console_log [LStr ("✅ Project "
                                      ++ string_of_number projectId
                                      ++ " updated:"); LJson result] ;;
                   ret result)
                ("❌ Error updating project "
                 ++ string_of_number projectId ++ ":") w) as [evs [E F]].
    { intros; quiet_tac. }
    exists (JSON_stringify (updateProject_body userId projectName projectData)),
      evs.
    split; [exact E | ]. split; [exact F | ]. split; [reflexivity | ].
    rewrite readObject_stringify. now destruct projectName, projectData.
  - intros [d | ]; cbn zeta; (split; [cbn; intuition discriminate | ]);
      (split; [reflexivity | ]);
      unfold JSON_stringify, updateProject_body; cbn [SerializeJSONObject map
        String.concat member fst snd]; now rewrite ?string_app_assoc.
  - intros [n | ]; cbn zeta; (split; [cbn; intuition discriminate | ]);
      (split; [reflexivity | ]);
      unfold JSON_stringify, updateProject_body; cbn [SerializeJSONObject map
        String.concat member fst snd]; now rewrite ?string_app_assoc.
Qed.

(** C9.  If decodeBase64 undoes encodeBase64 on every string and
    stringToUint8Array undoes uint8ArrayToString on every byte array, then
    base64ToUint8Array undoes uint8ArrayToBase64 on every byte array. *)
Theorem base64_roundtrip (a : list Byte.byte) :
  (forall s, exists b,
      ts_pxtc_encodeBase64 s = inr b /\ ts_pxtc_decodeBase64 b = inr s) ->
  (forall bytes,
      pxt_Util_stringToUint8Array (pxt_Util_uint8ArrayToString bytes) = bytes) ->
  exists base64,
    uint8ArrayToBase64 a = inr base64 /\ base64ToUint8Array base64 = inr a.
Proof.
  intros Hcodec Hbytes. unfold uint8ArrayToBase64, base64ToUint8Array.
  destruct (Hcodec (pxt_Util_uint8ArrayToString a)) as [b [Henc Hdec]].
  exists b. split; [exact Henc | ]. now rewrite Hdec, Hbytes.
Qed.

End TransportFacts.

Lemma base64_roundtrip_witness :
  exists base64,
    @uint8ArrayToBase64 (Sample.host_of Sample.offline)
      [Byte.x50; Byte.x58; Byte.x54] = inr base64 /\
    @base64ToUint8Array (Sample.host_of Sample.offline) base64
      = inr [Byte.x50; Byte.x58; Byte.x54].
Proof.
  apply (@base64_roundtrip (Sample.host_of Sample.offline)).
  - intros s. exists s. split; reflexivity.
  - intros bytes. apply list_byte_of_string_of_list_byte.
Defined.

Lemma unsuccessful_status_failure_witness :
  fst (@call (Sample.host_of Sample.notFound)
         (OpGetProject 7 "test-user")
         (Sample.world Sample.notFound []))
  = inl (new_Error "Project not found").
Proof.
  apply (@unsuccessful_status_failure (Sample.host_of Sample.notFound)
           (OpGetProject 7 "test-user") (Sample.world Sample.notFound [])
           {| ok := false;
              json := inr (JObj [("error", JStr "Project not found")]) |});
    reflexivity.
Defined.

(** C4 (as stated) fails: behind a gateway that answers 502 with an HTML
    page, saveProject fails with the SyntaxError of [response.json()], whose
    message is not the default one. *)
Lemma unparsable_error_body_counterexample :
  let r := @saveProject (Sample.host_of Sample.badGateway) "u1" "Foo" "QQ=="
             (Sample.world Sample.badGateway []) in
  fst r = inl (JsError "SyntaxError" "Unexpected token < in JSON at position 0")
  /\ ~ (exists e, fst r = inl e /\ errorMsg e = "Failed to save project").
Proof.
  split; [reflexivity | ].
  intros [e [E M]]. cbv in E. inversion E. subst e. discriminate M.
Qed.

(* ================================================================== *)
(** * Project importer *)
(* ================================================================== *)

Section ImporterFacts.
Context {H : Host}.

(** The format checks consult no collaborator state: a payload either
    passes them in every world, leaving the world as it was, or fails them
    with the same error in every world. *)
Lemma decodePayload_pure cloudData :
  exists r, forall w, decodePayload cloudData w = (r, w).
Proof.
  unfold decodePayload, bind, liftE, parseJSON.
  destruct (base64ToUint8Array _); [eexists; reflexivity | ].
  destruct (pxt_lzmaDecompressAsync _); [eexists; reflexivity | ].
  destruct (JSON_parse _); eexists; reflexivity.
Qed.

Lemma requireConfig_pure text :
  exists r, forall w, requireConfig text w = (r, w).
Proof.
  unfold requireConfig, bind, liftE, throw, ret.
  destruct (Get text pxt_CONFIG_NAME) as [e | c]; [eexists; reflexivity | ].
  destruct (negb (truthy c)); eexists; reflexivity.
Qed.

Lemma readFormat_shape projectData :
  (exists format, forall w, readFormat projectData w = (inr format, w)) \/
  (exists e, forall w, exists w', readFormat projectData w = (inl e, w')).
Proof.
  unfold readFormat, bind, liftE, parseJSON, console_error, emit, throw, ret.
  destruct (Get projectData "source") as [e | source];
    [right; exists e; intros; eexists; reflexivity | ].
  destruct (truthy source && (typeof source =? "string")).
  - destruct (JSON_parse (ToStr source)) as [m | t];
      [right; eexists; intros; eexists; reflexivity | ].
    destruct (Get projectData "meta");
      [right | left]; eexists; intros; try eexists; reflexivity.
  - destruct (Get projectData "text") as [e | text];
      [right; exists e; intros; eexists; reflexivity | ].
    destruct (truthy text && (typeof text =? "object")).
    + destruct (Get projectData "header");
        [right | left]; eexists; intros; try eexists; reflexivity.
    + right; eexists; intros; eexists; reflexivity.
Qed.

Lemma validatePayload_shape cloudData :
  (exists valid, forall w, validatePayload cloudData w = (inr valid, w)) \/
  (exists e, forall w, exists w', validatePayload cloudData w = (inl e, w')).
Proof.
  unfold validatePayload.
  destruct (decodePayload_pure cloudData) as [[e | p] Hd].
  { right. exists e. intros w. exists w. now apply bind_inl. }
  destruct (readFormat_shape p) as [[f Hf] | [e Hf]].
  - destruct (requireConfig_pure (fst f)) as [[e | c] Hc].
    + right. exists e. intros w. exists w.
      rewrite (bind_inr _ _ _ (Hd w)), (bind_inr _ _ _ (Hf w)).
      now apply bind_inl.
    + left. eexists. intros w.
      rewrite (bind_inr _ _ _ (Hd w)), (bind_inr _ _ _ (Hf w)),
        (bind_inr _ _ _ (Hc w)). reflexivity.
  - right. exists e. intros w. destruct (Hf w) as [w' Hw].
    exists w'. rewrite (bind_inr _ _ _ (Hd w)). now apply bind_inl.
Qed.

Lemma validatePayload_result cloudData w w0 :
  fst (validatePayload cloudData w) = fst (validatePayload cloudData w0).
Proof.
  destruct (validatePayload_shape cloudData) as [[v Hv] | [e He]].
  - now rewrite !Hv.
  - destruct (He w) as [w1 H1], (He w0) as [w2 H2]. now rewrite H1, H2.
Qed.

Lemma validatePayload_ok cloudData w valid :
  fst (validatePayload cloudData w) = inr valid ->
  validatePayload cloudData w = (inr valid, w).
Proof.
  destruct (validatePayload_shape cloudData) as [[v Hv] | [e He]].
  - rewrite Hv. cbn. congruence.
  - destruct (He w) as [w1 H1]. rewrite H1. discriminate.
Qed.

Lemma find_name_some projectName (hs : list Header) :
  (exists h, In h hs /\ header_name h = projectName) ->
  exists h, find (fun h => header_name h =? projectName) hs = Some h.
Proof.
  intros [h [Hin Hname]].
  destruct (find _ hs) as [h' | ] eqn:F; [now exists h' | ].
  apply (find_none _ _ F) in Hin. rewrite Hname, String.eqb_refl in Hin.
  discriminate.
Qed.

Lemma import_skipped cloudData w valid :
  fst (validatePayload cloudData w) = inr valid ->
  (exists h, In h (workspace_getHeaders (host w))
             /\ header_name h = cloud_projectName cloudData) ->
  importCloudProject cloudData w =
    (inr false,
     {| host := host w; API_BASE_URL := API_BASE_URL w;
        trace := trace w ++ skippedImportTrace (cloud_projectName cloudData) |}).
Proof.
  intros Hv Hex.
  unfold importCloudProject. unfold bind at 1, console_log at 1, emit at 1.
  set (w0 := record _ w).
  assert (Hv0 : validatePayload cloudData w0 = (inr valid, w0)).
  { apply validatePayload_ok. now rewrite (validatePayload_result cloudData w0 w). }
  unfold tryCatch, importCloudProject_try. rewrite (bind_inr _ _ _ Hv0).
  unfold installUnlessLocal. unfold bind at 1, getHeaders at 1.
  destruct (@find_name_some _ _ Hex) as [h F].
  change (host w0) with (host w). rewrite F.
  subst w0. unfold console_log, bind, emit, ret, record, skippedImportTrace.
  cbn [fst snd host trace API_BASE_URL]. repeat rewrite <- app_assoc. reflexivity.
Qed.

(** C1.  When the payload passes the format checks and a local header bears
    the incoming project name, importCloudProject returns false and records
    no installation request, and so does a second import of the same data
    right after it; the workspace store is left as it was. *)
Theorem import_skips_local_name cloudData w valid :
  fst (validatePayload cloudData w) = inr valid ->
  (exists h, In h (workspace_getHeaders (host w))
             /\ header_name h = cloud_projectName cloudData) ->
  let first := importCloudProject cloudData w in
  let second := importCloudProject cloudData (snd first) in
  fst first = inr false /\
  fst second = inr false /\
  trace (snd first) = trace w ++ skippedImportTrace (cloud_projectName cloudData) /\
  trace (snd second) =
    trace w ++ skippedImportTrace (cloud_projectName cloudData)
            ++ skippedImportTrace (cloud_projectName cloudData) /\
  filter is_install (trace (snd second)) = filter is_install (trace w) /\
  host (snd second) = host w.
Proof.
  intros Hv Hex first second.
  assert (E1 : first = (inr false,
     {| host := host w; API_BASE_URL := API_BASE_URL w;
        trace := trace w ++ skippedImportTrace (cloud_projectName cloudData) |}))
    by (apply import_skipped with (valid := valid); assumption).
  assert (E2 : second = (inr false,
     {| host := host w; API_BASE_URL := API_BASE_URL w;
        trace := (trace w ++ skippedImportTrace (cloud_projectName cloudData))
                 ++ skippedImportTrace (cloud_projectName cloudData) |})).
  { subst second. rewrite E1. cbn [snd].
    set (w1 := {| host := host w; API_BASE_URL := API_BASE_URL w;
                  trace := trace w ++ skippedImportTrace
                                        (cloud_projectName cloudData) |}).
    assert (Hv1 : fst (validatePayload cloudData w1) = inr valid)
      by (rewrite (validatePayload_result cloudData w1 w); exact Hv).
    exact (@import_skipped cloudData w1 valid Hv1 Hex). }
  rewrite E2, E1. cbn [fst snd trace host].
  repeat split; try reflexivity.
  - now rewrite <- app_assoc.
  - rewrite !filter_app. cbn. now rewrite !app_nil_r.
Qed.

End ImporterFacts.

Lemma import_skips_local_name_witness :
  fst (importCloudProject (Sample.cloud "Alpha" Sample.goodText)
         Sample.alphaInstalled) = inr false /\
  fst (importCloudProject (Sample.cloud "Alpha" Sample.goodText)
         (snd (importCloudProject (Sample.cloud "Alpha" Sample.goodText)
                 Sample.alphaInstalled))) = inr false /\
  filter is_install
    (trace (snd (importCloudProject (Sample.cloud "Alpha" Sample.goodText)
       (snd (importCloudProject (Sample.cloud "Alpha" Sample.goodText)
               Sample.alphaInstalled))))) = [].
Proof.
  destruct (@import_skips_local_name (Sample.host_of Sample.offline)
              (Sample.cloud "Alpha" Sample.goodText) Sample.alphaInstalled
              (JObj [("pxt.json", JStr "{}")], Some (JObj []), Some (JStr "{}")))
    as [A [B [_ [_ [C _]]]]].
  - reflexivity.
  - eexists. split; [left; reflexivity | reflexivity].
  - repeat split; assumption.
Defined.

Section ImporterFailures.
Context {H : Host}.

Lemma importCloudProject_run cloudData w :
  importCloudProject cloudData w =
    match importCloudProject_try cloudData (record (importing cloudData) w) with
    | (inl e, w1) =>
        (inl e, record (importFailureNotice (cloud_projectName cloudData) e)
                  (record (importFailureLog cloudData e) w1))
    | (inr b, w1) => (inr b, w1)
    end.
Proof.
  unfold importCloudProject, bind, console_log, emit, tryCatch, importing.
  destruct (importCloudProject_try _ _) as [[e | b] w1]; reflexivity.
Qed.

Lemma prepareInstallHeader_pure cloudData config header :
  exists r, forall w, prepareInstallHeader cloudData config header w = (r, w).
Proof.
  unfold prepareInstallHeader, bind, liftE, ret.
  destruct (Get config "preferredEditor"); eexists; reflexivity.
Qed.

Lemma format_checks_fail projectData e w w0 :
  fst ((format <- readFormat projectData ;; requireConfig (fst format)) w) = inl e ->
  exists w1,
    (format <- readFormat projectData ;; requireConfig (fst format)) w0 = (inl e, w1).
Proof.
  destruct (readFormat_shape projectData) as [[f Hf] | [e' Hf]].
  - rewrite (bind_inr _ _ _ (Hf w)), (bind_inr _ _ _ (Hf w0)).
    destruct (requireConfig_pure (fst f)) as [r Hr]. rewrite !Hr. cbn.
    intros ->. now exists w0.
  - destruct (Hf w) as [w1 H1], (Hf w0) as [w2 H2].
    rewrite (bind_inl _ _ _ H1), (bind_inl _ _ _ H2). cbn.
    intros E. inversion E. now exists w2.
Qed.

Lemma validatePayload_assoc cloudData w :
  validatePayload cloudData w =
    match decodePayload cloudData w with
    | (inl e, w') => (inl e, w')
    | (inr projectData, w') =>
        match readFormat projectData w' with
        | (inl e, w1) => (inl e, w1)
        | (inr format, w1) =>
            match requireConfig (fst format) w1 with
            | (inl e, w2) => (inl e, w2)
            | (inr c, w2) => (inr (fst format, snd format, c), w2)
            end
        end
    end.
Proof. reflexivity. Qed.

Lemma step_failure_try cloudData w e :
  StepFailure cloudData w e ->
  exists w1,
    importCloudProject_try cloudData (record (importing cloudData) w) = (inl e, w1).
Proof.
  set (w0 := record (importing cloudData) w).
  intros F. unfold importCloudProject_try.
  destruct F as [e Hb | bytes e Hb Hz | bytes js m Hb Hz Hp | p e Hd Hf
                | text header c m Hv Hfind Hp
                | text header c config ih e Hv Hfind Hp Hih Hinst].
  - exists w0. apply bind_inl. unfold validatePayload. apply bind_inl.
    unfold decodePayload. apply bind_inl.
    unfold liftE, base64ToUint8Array. now rewrite Hb.
  - exists w0. apply bind_inl. unfold validatePayload. apply bind_inl.
    unfold decodePayload, bind, liftE. now rewrite Hb, Hz.
  - exists w0. apply bind_inl. unfold validatePayload. apply bind_inl.
    unfold decodePayload, bind, liftE, parseJSON. rewrite Hb, Hz.
    cbn [ToStr ToString]. now rewrite Hp.
  - destruct (decodePayload_pure cloudData) as [r Hr]. rewrite Hr in Hd.
    cbn in Hd. subst r.
    destruct (format_checks_fail p w w0 Hf) as [w1 H1]. exists w1.
    apply bind_inl. rewrite validatePayload_assoc, Hr.
    unfold bind in H1.
    destruct (readFormat p w0) as [[e' | f] w2]; [congruence | ].
    destruct (requireConfig (fst f) w2) as [[e' | c] w3];
      [congruence | discriminate].
  - assert (Hv0 : validatePayload cloudData w0 = (inr (text, header, c), w0)).
    { apply validatePayload_ok.
      now rewrite (validatePayload_result cloudData w0 w). }
    rewrite (bind_inr _ _ _ Hv0). cbn [fst snd].
    unfold installUnlessLocal, bind at 1, getHeaders at 1.
    change (host w0) with (host w). rewrite Hfind.
    eexists. apply bind_inl. unfold parseJSON. rewrite Hp. reflexivity.
  - assert (Hv0 : validatePayload cloudData w0 = (inr (text, header, c), w0)).
    { apply validatePayload_ok.
      now rewrite (validatePayload_result cloudData w0 w). }
    rewrite (bind_inr _ _ _ Hv0). cbn [fst snd].
    unfold installUnlessLocal, bind at 1, getHeaders at 1.
    change (host w0) with (host w). rewrite Hfind.
    destruct (prepareInstallHeader_pure cloudData config header) as [r Hr].
    rewrite Hr in Hih. cbn in Hih. subst r.
    eexists.
    erewrite bind_inr; [ | unfold parseJSON; rewrite Hp; reflexivity].
    erewrite bind_inr; [ | apply Hr].
    apply bind_inl. unfold installAsync. cbn [host record].
    change (host w0) with (host w). rewrite Hinst. reflexivity.
Qed.

(** C8.  Whichever step of an import fails (Base64 decoding, decompression,
    JSON parsing, the format checks, parsing the configuration, the
    installation request), and whatever else the try block throws,
    importCloudProject fails with that same error, after one console.error
    line and one error notification. *)
Theorem import_failure_rethrown cloudData w e :
  StepFailure cloudData w e \/
  fst (importCloudProject_try cloudData (record (importing cloudData) w))
    = inl e ->
  exists w1,
    importCloudProject_try cloudData (record (importing cloudData) w)
      = (inl e, w1) /\
    importCloudProject cloudData w =
      (inl e,
       record (importFailureNotice (cloud_projectName cloudData) e)
         (record (importFailureLog cloudData e) w1)).
Proof.
  intros F.
  assert (T : exists w1,
             importCloudProject_try cloudData (record (importing cloudData) w)
             = (inl e, w1)).
  { destruct F as [F | F]; [exact (step_failure_try F) | ].
    destruct (importCloudProject_try cloudData _) as [r w1].
    cbn in F. subst r. now exists w1. }
  destruct T as [w1 H1].
  exists w1. split; [exact H1 | ].
  rewrite importCloudProject_run, H1. reflexivity.
Qed.

End ImporterFailures.

Section FormatChecks.
Context {H : Host}.

Lemma string_test v :
  truthy v && (typeof v =? "string") = is_nonempty_string v.
Proof.
  destruct v as [[ | b | f | s | l | l] | ]; try reflexivity.
  - now destruct b.
  - now destruct f.
  - cbn. now rewrite andb_true_r.
Qed.

Lemma object_test v :
  truthy v && (typeof v =? "object") = is_object v.
Proof.
  destruct v as [[ | b | f | s | l | l] | ]; try reflexivity.
  - now destruct b.
  - now destruct f.
  - cbn. now rewrite andb_false_r.
Qed.

Lemma JSON_eq_null (v : JSON) : v = JNull \/ v <> JNull.
Proof. destruct v; (now left) || (right; discriminate). Qed.

Lemma Get_field v k : v <> JNull -> Get v k = inr (field v k).
Proof. destruct v; congruence || reflexivity. Qed.

Lemma messages_differ : unknown_format_message <> missing_config_message.
Proof. unfold unknown_format_message, missing_config_message. cbn. congruence. Qed.

Lemma foreign_not_Error e m : foreign e -> e <> new_Error m.
Proof. intros [n [m' [-> Hn]]] E. inversion E. congruence. Qed.

Lemma FileMap_not_null projectData text :
  FileMap projectData text -> projectData <> JNull.
Proof. intros [s t Hs _ _ | t _ Ht _] ->; discriminate. Qed.

Lemma readFormat_cases projectData w :
  match fst (readFormat projectData w) with
  | inr format => FileMap projectData (fst format)
  | inl e =>
      (e = new_Error unknown_format_message /\ UnknownFormat projectData)
      \/ foreign e
  end.
Proof.
  destruct (JSON_eq_null projectData) as [-> | Hn].
  { right. do 2 eexists. split; [reflexivity | discriminate]. }
  unfold readFormat, bind, liftE. rewrite (Get_field "source" Hn).
  cbn [fst snd]. rewrite string_test.
  destruct (is_nonempty_string (field projectData "source")) eqn:Hs.
  - destruct (field projectData "source") as [[ | | | s | | ] | ] eqn:Hf;
      try discriminate.
    unfold parseJSON. cbn [ToStr ToString].
    destruct (JSON_parse s) as [m | text] eqn:Hp; cbn [fst snd].
    + right. do 2 eexists. split; [reflexivity | discriminate].
    + rewrite (Get_field "meta" Hn). unfold ret. cbn [fst snd].
      apply format1 with (s := s); [assumption | | assumption].
      intros ->. discriminate.
  - rewrite (Get_field "text" Hn). cbn [fst snd]. rewrite object_test.
    destruct (is_object (field projectData "text")) eqn:Ho.
    + rewrite (Get_field "header" Hn). unfold ret. cbn [fst snd].
      destruct (field projectData "text") as [t | ] eqn:Ht; [ | discriminate].
      now apply format2.
    + left. unfold console_error, emit, throw. cbn [fst snd].
      split; [reflexivity | ]. repeat split; assumption.
Qed.

Lemma readFormat_unknown projectData w :
  UnknownFormat projectData ->
  fst (readFormat projectData w) = inl (new_Error unknown_format_message).
Proof.
  intros [Hn [Hs Ho]].
  unfold readFormat, bind, liftE. rewrite (Get_field "source" Hn).
  cbn [fst snd]. rewrite string_test, Hs.
  rewrite (Get_field "text" Hn). cbn [fst snd]. rewrite object_test, Ho.
  reflexivity.
Qed.

Lemma readFormat_fileMap projectData text w :
  FileMap projectData text ->
  exists header, fst (readFormat projectData w) = inr (text, header).
Proof.
  intros F. pose proof (FileMap_not_null F) as Hn.
  unfold readFormat, bind, liftE. rewrite (Get_field "source" Hn).
  cbn [fst snd]. rewrite string_test.
  destruct F as [s t Hs Hne Hp | t Hs Ht Ho].
  - rewrite Hs. cbn [is_nonempty_string].
    apply String.eqb_neq in Hne. rewrite Hne. cbn [negb].
    unfold parseJSON. cbn [ToStr ToString]. rewrite Hp.
    rewrite (Get_field "meta" Hn). eexists. reflexivity.
  - rewrite Hs, (Get_field "text" Hn). cbn [fst snd].
    rewrite object_test, Ht, Ho, (Get_field "header" Hn).
    eexists. reflexivity.
Qed.

Lemma requireConfig_cases text w :
  match fst (requireConfig text w) with
  | inr configText => True
  | inl e =>
      (e = new_Error missing_config_message /\ text <> JNull
       /\ truthy (field text pxt_CONFIG_NAME) = false)
      \/ foreign e
  end.
Proof.
  destruct (JSON_eq_null text) as [-> | Hn].
  { right. do 2 eexists. split; [reflexivity | discriminate]. }
  unfold requireConfig, bind, liftE. rewrite (Get_field pxt_CONFIG_NAME Hn).
  cbn [fst snd].
  destruct (truthy (field text pxt_CONFIG_NAME)) eqn:Ht; cbn [negb].
  - exact I.
  - left. repeat split; assumption.
Qed.

Lemma requireConfig_missing text w :
  text <> JNull ->
  truthy (field text pxt_CONFIG_NAME) = false ->
  fst (requireConfig text w) = inl (new_Error missing_config_message).
Proof.
  intros Hn Ht. unfold requireConfig, bind, liftE.
  rewrite (Get_field pxt_CONFIG_NAME Hn). cbn [fst snd]. now rewrite Ht.
Qed.

Lemma checks_run projectData w :
  fst ((format <- readFormat projectData ;; requireConfig (fst format)) w) =
    match readFormat projectData w with
    | (inl e, _) => inl e
    | (inr format, w1) => fst (requireConfig (fst format) w1)
    end.
Proof. unfold bind. now destruct (readFormat projectData w) as [[e | f] w1]. Qed.

Lemma checks_unknown projectData w :
  fst ((format <- readFormat projectData ;; requireConfig (fst format)) w)
    = inl (new_Error unknown_format_message)
  <-> UnknownFormat projectData.
Proof.
  rewrite checks_run. split.
  - pose proof (readFormat_cases projectData w) as C.
    destruct (readFormat projectData w) as [[e | f] w1]; cbn [fst] in C.
    + intros E. inversion E; subst e.
      destruct C as [[_ U] | Hf]; [exact U | ].
      now apply foreign_not_Error with (m := unknown_format_message) in Hf.
    + pose proof (requireConfig_cases (fst f) w1) as R. intros E.
      rewrite E in R. destruct R as [[Hm _] | Hf].
      * exfalso. apply messages_differ. unfold new_Error in Hm. congruence.
      * now apply foreign_not_Error with (m := unknown_format_message) in Hf.
  - intros U. pose proof (readFormat_unknown w U) as R.
    destruct (readFormat projectData w) as [[e | f] w1]; cbn [fst] in R;
      congruence.
Qed.

Lemma checks_missing projectData w :
  fst ((format <- readFormat projectData ;; requireConfig (fst format)) w)
    = inl (new_Error missing_config_message)
  <-> MissingConfig projectData.
Proof.
  rewrite checks_run. split.
  - pose proof (readFormat_cases projectData w) as C.
    destruct (readFormat projectData w) as [[e | f] w1]; cbn [fst] in C.
    + intros E. inversion E; subst e.
      destruct C as [[Hm _] | Hf].
      * exfalso. apply messages_differ. unfold new_Error in Hm. congruence.
      * now apply foreign_not_Error with (m := missing_config_message) in Hf.
    + pose proof (requireConfig_cases (fst f) w1) as R. intros E.
      rewrite E in R. destruct R as [[_ [Hn Ht]] | Hf].
      * exists (fst f). repeat split; assumption.
      * now apply foreign_not_Error with (m := missing_config_message) in Hf.
  - intros [text [F [Hn Ht]]].
    destruct (readFormat_fileMap w F) as [header R].
    destruct (readFormat projectData w) as [[e | f] w1]; cbn [fst] in R;
      [discriminate | ].
    inversion R; subst f. cbn [fst]. now apply requireConfig_missing.
Qed.

End FormatChecks.

Section FormatClaim.
Context {H : Host}.

Lemma quiet_validatePayload cloudData :
  quiet is_workspace_call (validatePayload cloudData).
Proof. unfold validatePayload, decodePayload, readFormat, requireConfig. quiet_tac. Qed.

Lemma validation_failure_import cloudData w e w1 :
  validatePayload cloudData (record (importing cloudData) w) = (inl e, w1) ->
  fst (importCloudProject cloudData w) = inl e /\
  filter is_workspace_call (trace (snd (importCloudProject cloudData w)))
    = filter is_workspace_call (trace w).
Proof.
  intros Hv. rewrite importCloudProject_run. unfold importCloudProject_try.
  rewrite (bind_inl _ _ _ Hv). cbn [fst snd]. split; [reflexivity | ].
  pose proof (quiet_filter (record (importing cloudData) w)
                (quiet_validatePayload cloudData)) as Q.
  rewrite Hv in Q. cbn [snd] in Q.
  unfold record at 1 2. cbn [trace]. rewrite <- !app_assoc, filter_app, Q.
  unfold record. cbn [trace]. rewrite filter_app. cbn. now rewrite !app_nil_r.
Qed.

Lemma quiet_nothing_after_getHeaders cloudData text header configText hs :
  quiet (fun _ => false)
    (match find (fun h => header_name h =? cloud_projectName cloudData) hs with
     | Some _ =>
         console_log [LStr ("⚠️  Project " ++ String dquote
                            (cloud_projectName cloudData ++ String dquote
                             " already exists locally"))] ;;
         console_log [LStr "   Local files trump cloud files - skipping import"] ;;
         ret false
     | None =>
         config <- parseJSON configText ;;
         installHeader <- prepareInstallHeader cloudData config header ;;
         installedHeader <- installAsync installHeader text ;;
         console_log [LStr ("✅ Successfully imported project: "
                            ++ cloud_projectName cloudData)] ;;
         refreshWorkspace ;;
         ret true
     end).
Proof. unfold prepareInstallHeader. quiet_tac. Qed.

Lemma import_reaches_workspace cloudData w valid :
  validatePayload cloudData (record (importing cloudData) w)
    = (inr valid, record (importing cloudData) w) ->
  exists evs,
    trace (snd (importCloudProject cloudData w)) =
      trace w ++ importing cloudData :: GetHeadersCall :: evs.
Proof.
  intros Hv. rewrite importCloudProject_run. unfold importCloudProject_try.
  rewrite (bind_inr _ _ _ Hv).
  unfold installUnlessLocal, bind at 1, getHeaders at 1.
  set (w0 := record (importing cloudData) w).
  destruct (quiet_nothing_after_getHeaders cloudData (fst (fst valid))
              (snd (fst valid)) (snd valid) (workspace_getHeaders (host w0))
              (record GetHeadersCall w0)) as [_ [evs [E _]]].
  match type of E with trace (snd ?m) = _ =>
    destruct m as [[e | b] w1] end; cbn [snd] in E |- *.
  - exists (evs ++ [importFailureLog cloudData e;
                    importFailureNotice (cloud_projectName cloudData) e]).
    unfold record at 1 2. cbn [trace]. rewrite E. unfold w0, record.
    cbn [trace]. now rewrite <- !app_assoc.
  - exists evs. rewrite E. unfold w0, record. cbn [trace].
    now rewrite <- !app_assoc.
Qed.

Lemma workspace_call_added (tr evs : list Event) ev :
  filter is_workspace_call (tr ++ ev :: GetHeadersCall :: evs)
    <> filter is_workspace_call tr.
Proof.
  rewrite filter_app. intros E.
  apply (f_equal (@List.length Event)) in E. rewrite length_app in E.
  cbn in E. destruct (is_workspace_call ev); cbn in E; lia.
Qed.

(** C3 (as amended).  For a payload that decodes to [projectData],
    importCloudProject fails with the unknown-format error, before any call
    to the workspace store, exactly when the payload is not null and holds
    neither a non-empty string under [source] nor an object under [text];
    it fails with the missing-configuration error, before any call to the
    workspace store, exactly when the payload matches one of the two formats
    and its file map holds no truthy value under the configuration name. *)
Theorem invalid_format_cases cloudData w projectData :
  fst (decodePayload cloudData w) = inr projectData ->
  (UnknownFormat projectData <->
     fst (importCloudProject cloudData w) = inl (new_Error unknown_format_message)
     /\ filter is_workspace_call (trace (snd (importCloudProject cloudData w)))
        = filter is_workspace_call (trace w)) /\
  (MissingConfig projectData <->
     fst (importCloudProject cloudData w) = inl (new_Error missing_config_message)
     /\ filter is_workspace_call (trace (snd (importCloudProject cloudData w)))
        = filter is_workspace_call (trace w)).
Proof.
  intros Hd. set (w0 := record (importing cloudData) w).
  destruct (decodePayload_pure cloudData) as [r Hr].
  rewrite Hr in Hd. cbn in Hd. subst r.
  assert (Hfail : forall e,
    fst ((format <- readFormat projectData ;; requireConfig (fst format)) w0)
      = inl e ->
    fst (importCloudProject cloudData w) = inl e /\
    filter is_workspace_call (trace (snd (importCloudProject cloudData w)))
      = filter is_workspace_call (trace w)).
  { intros e He.
    destruct (@step_failure_try _ cloudData w e) as [w1 H1].
    { apply format_validation_fails with (projectData := projectData).
      - now rewrite Hr.
      - destruct (format_checks_fail projectData w0 w He) as [w2 H2].
        now rewrite H2. }
    unfold importCloudProject_try in H1. fold w0 in H1.
    destruct (validatePayload_shape cloudData) as [[v Hv] | [e' He']].
    - exfalso. specialize (Hv w0). rewrite validatePayload_assoc, Hr in Hv.
      unfold bind in He.
      destruct (readFormat projectData w0) as [[e1 | f] w2]; [discriminate | ].
      destruct (requireConfig (fst f) w2) as [[e1 | c] w3]; discriminate.
    - destruct (He' w0) as [w2 H2].
      assert (e' = e).
      { rewrite validatePayload_assoc, Hr in H2. unfold bind in He.
        destruct (readFormat projectData w0) as [[e1 | f] w3];
          [cbn in He; congruence | ].
        destruct (requireConfig (fst f) w3) as [[e1 | c] w4];
          cbn in He; congruence. }
      subst e'. exact (validation_failure_import cloudData w H2). }
  assert (Hback : forall e,
    fst (importCloudProject cloudData w) = inl e ->
    filter is_workspace_call (trace (snd (importCloudProject cloudData w)))
      = filter is_workspace_call (trace w) ->
    fst ((format <- readFormat projectData ;; requireConfig (fst format)) w0)
      = inl e).
  { intros e He Hq.
    destruct (validatePayload_shape cloudData) as [[v Hv] | [e' He']].
    - exfalso. pose proof (Hv w0) as Hv0.
      apply import_reaches_workspace in Hv0 as [evs E].
      rewrite E in Hq. now apply workspace_call_added in Hq.
    - destruct (He' w0) as [w2 H2].
      destruct (validation_failure_import cloudData w H2) as [E _].
      assert (e' = e) by congruence. subst e'.
      rewrite validatePayload_assoc, Hr in H2. unfold bind.
      destruct (readFormat projectData w0) as [[e1 | f] w3];
        [cbn; congruence | ].
      destruct (requireConfig (fst f) w3) as [[e1 | c] w4];
        cbn; congruence. }
  split; split.
  - intros U. apply Hfail. now apply checks_unknown.
  - intros [E Q]. apply (checks_unknown projectData w0). now apply Hback.
  - intros U. apply Hfail. now apply checks_missing.
  - intros [E Q]. apply (checks_missing projectData w0). now apply Hback.
Qed.

End FormatClaim.

Lemma import_failure_rethrown_witness :
  fst (importCloudProject (Sample.cloud "Gamma" Sample.noConfigText)
         Sample.freshWorkspace)
  = inl (new_Error "Invalid project structure: missing 'pxt.json' file").
Proof.
  destruct (@import_failure_rethrown (Sample.host_of Sample.offline)
              (Sample.cloud "Gamma" Sample.noConfigText)
              Sample.freshWorkspace
              (new_Error "Invalid project structure: missing 'pxt.json' file"))
    as [w1 [_ E]].
  - left. eapply format_validation_fails; reflexivity.
  - rewrite E. reflexivity.
Defined.

Lemma invalid_format_cases_witness :
  fst (importCloudProject (Sample.cloud "Delta" Sample.noShapeText)
         Sample.freshWorkspace)
  = inl (new_Error unknown_format_message).
Proof.
  apply (proj1 (proj1 (@invalid_format_cases (Sample.host_of Sample.offline)
                         (Sample.cloud "Delta" Sample.noShapeText)
                         Sample.freshWorkspace Sample.noShapePayload
                         eq_refl))).
  repeat split. discriminate.
Defined.

(** C3 (as stated) fails.  The payload { "source": "" } has a string-valued
    source field, and the payload { "text": { "pxt.json": "" } } has an entry
    under the configuration name; neither is one of the two stated cases,
    yet both imports fail with an InvalidFormat error. *)
Lemma invalid_format_counterexample :
  (fst (decodePayload (Sample.cloud "E" Sample.emptySourceText)
          Sample.freshWorkspace) = inr Sample.emptySourcePayload /\
   fst (importCloudProject (Sample.cloud "E" Sample.emptySourceText)
          Sample.freshWorkspace) = inl (new_Error unknown_format_message) /\
   ~ NeitherField Sample.emptySourcePayload /\
   ~ @NoConfigEntry (Sample.host_of Sample.offline)
       Sample.emptySourcePayload) /\
  (fst (decodePayload (Sample.cloud "F" Sample.emptyConfigText)
          Sample.freshWorkspace) = inr Sample.emptyConfigPayload /\
   fst (importCloudProject (Sample.cloud "F" Sample.emptyConfigText)
          Sample.freshWorkspace)
     = inl (new_Error (@missing_config_message
                         (Sample.host_of Sample.offline))) /\
   ~ NeitherField Sample.emptyConfigPayload /\
   ~ @NoConfigEntry (Sample.host_of Sample.offline)
       Sample.emptyConfigPayload).
Proof.
  split; (split; [reflexivity | split; [reflexivity | split]]).
  - intros [Hs _]. now apply (Hs "").
  - intros [text [[[s [Hs Hp]] | [Ht _]] _]].
    + inversion Hs; subst s. discriminate Hp.
    + discriminate Ht.
  - intros [_ Ho]. discriminate Ho.
  - intros [text [[[s [Hs _]] | [Ht _]] Hc]].
    + discriminate Hs.
    + inversion Ht; subst text. discriminate Hc.
Qed.

(* ================================================================== *)
(** * Sync orchestrator *)
(* ================================================================== *)

Section SyncFacts.
Context {H : Host}.

Lemma syncFromCloud_run w :
  syncFromCloud w =
    match syncFromCloud_try (record starting w) with
    | (inl e, w1) =>
        (inr tt,
         record (ErrorNotification
                   (lf "Cloud sync failed: {0}" [LfStr (errorMsg e)]))
           (record (ConsoleError [LStr "❌ Cloud sync failed:"; LErr e]) w1))
    | (inr u, w1) => (inr u, w1)
    end.
Proof.
  unfold syncFromCloud, bind, console_log, console_error,
    core_errorNotification, emit, tryCatch, starting.
  destruct (syncFromCloud_try _) as [[e | u] w1]; reflexivity.
Qed.

Lemma syncFromCloud_try_run w :
  syncFromCloud_try w =
    match listing w with
    | (inl e, w1) => (inl e, w1)
    | (inr ul, w1) => syncProjects (fst ul) (snd ul) w1
    end.
Proof.
  unfold syncFromCloud_try, listing, bind, ret.
  destruct (getCurrentUserId w) as [[e | u] w1]; [reflexivity | ].
  destruct (getUserProjects u w1) as [[e | l] w2]; reflexivity.
Qed.

Lemma fetchAndImport_run userId projectInfo w :
  fetchAndImport userId projectInfo w =
    match getProject (item_id projectInfo) userId w with
    | (inl e, w1) => (inl e, w1)
    | (inr fullProject, w1) => importCloudProject (cloudDataOf fullProject) w1
    end.
Proof. reflexivity. Qed.

Lemma syncOne_run userId projectInfo i s w :
  syncOne userId projectInfo i s w =
    match fetchAndImport userId projectInfo w with
    | (inl e, w1) => (inr (i, s), record (turnFailureLog projectInfo e) w1)
    | (inr true, w1) => (inr (S i, s), w1)
    | (inr false, w1) => (inr (i, S s), w1)
    end.
Proof.
  unfold syncOne, tryCatch, bind, console_error, emit, ret, turnFailureLog.
  destruct (fetchAndImport userId projectInfo w) as [[e | [ | ]] w1]; reflexivity.
Qed.

Lemma syncOne_world userId projectInfo i s w :
  snd (syncOne userId projectInfo i s w) = snd (syncOne userId projectInfo 0 0 w).
Proof.
  rewrite !syncOne_run.
  destruct (fetchAndImport userId projectInfo w) as [[e | [ | ]] w1]; reflexivity.
Qed.

Lemma syncOne_counts userId projectInfo i s w :
  fst (syncOne userId projectInfo i s w) =
    inr (i + (if was_imported (turn userId projectInfo w) then 1 else 0),
         s + (if was_skipped (turn userId projectInfo w) then 1 else 0)).
Proof.
  rewrite syncOne_run, fetchAndImport_run. unfold turn.
  destruct (getProject (item_id projectInfo) userId w) as [[e | full] w1].
  - cbn. now rewrite !Nat.add_0_r.
  - destruct (importCloudProject (cloudDataOf full) w1) as [[e | [ | ]] w2];
      cbn; f_equal; f_equal; lia.
Qed.

Lemma syncLoop_counts userId cloudProjects : forall i s w,
  fst (syncLoop userId cloudProjects i s w) =
    inr (i + List.length (filter was_imported (turns userId cloudProjects w)),
         s + List.length (filter was_skipped (turns userId cloudProjects w))).
Proof.
  induction cloudProjects as [ | projectInfo rest IH]; intros i s w.
  - cbn. now rewrite !Nat.add_0_r.
  - cbn [syncLoop turns]. unfold bind.
    pose proof (syncOne_counts userId projectInfo i s w) as C.
    pose proof (syncOne_world userId projectInfo i s w) as W.
    destruct (syncOne userId projectInfo i s w) as [[e | counts] w1];
      cbn [fst snd] in C, W; [discriminate | ].
    inversion C; subst counts. subst w1. rewrite IH. cbn [fst snd filter].
    destruct (was_imported (turn userId projectInfo w)),
             (was_skipped (turn userId projectInfo w));
      cbn [List.length]; f_equal; f_equal; lia.
Qed.

Lemma turns_length userId cloudProjects : forall w,
  List.length (turns userId cloudProjects w) = List.length cloudProjects.
Proof.
  induction cloudProjects as [ | projectInfo rest IH]; intros w;
    [reflexivity | ]. cbn. now rewrite IH.
Qed.

Lemma succeeded_count (ts : list Turn) :
  List.length (filter was_imported ts) + List.length (filter was_skipped ts)
    = List.length (filter succeeded ts).
Proof.
  induction ts as [ | t ts IH]; [reflexivity | ].
  unfold succeeded in *. cbn [filter].
  destruct t; cbn [was_imported was_skipped orb List.length]; lia.
Qed.

Lemma quiet_getProject p projectId userId :
  (forall a, p (ConsoleLog a) = false) ->
  (forall a, p (ConsoleError a) = false) ->
  (forall req, p (FetchCall req) = false) ->
  quiet p (getProject projectId userId).
Proof.
  intros Hl He Hf. unfold getProject.
  repeat first
    [ apply quiet_bind; [ | intros ]
    | apply quiet_tryCatch; [ | intros ]
    | apply quiet_ret | apply quiet_throw | apply quiet_liftE
    | apply quiet_read_API_BASE_URL
    | apply quiet_fetch; apply Hf
    | apply quiet_emit; (apply Hl || apply He)
    | match goal with |- quiet _ (if ?b then _ else _) => destruct b end
    | progress unfold throwApiError, console_log, console_error ].
Qed.

Lemma quiet_getCurrentUserId p :
  (forall k, p (StorageRead k) = false) -> quiet p getCurrentUserId.
Proof.
  intros Hs. unfold getCurrentUserId.
  apply quiet_bind; [apply quiet_localStorage_get, Hs | intros a].
  destruct (truthy _); apply quiet_ret.
Qed.

Lemma quiet_getUserProjects p userId :
  (forall a, p (ConsoleLog a) = false) ->
  (forall a, p (ConsoleError a) = false) ->
  (forall req, p (FetchCall req) = false) ->
  quiet p (getUserProjects userId).
Proof.
  intros Hl He Hf. unfold getUserProjects.
  repeat first
    [ apply quiet_bind; [ | intros ]
    | apply quiet_tryCatch; [ | intros ]
    | apply quiet_ret | apply quiet_throw | apply quiet_liftE
    | apply quiet_read_API_BASE_URL
    | apply quiet_fetch; apply Hf
    | apply quiet_emit; (apply Hl || apply He)
    | match goal with |- quiet _ (if ?b then _ else _) => destruct b end
    | progress unfold throwApiError, console_log, console_error ].
Qed.

Lemma quiet_importCloudProject_try p cloudData :
  (forall a, p (ConsoleLog a) = false) ->
  (forall a, p (ConsoleError a) = false) ->
  p GetHeadersCall = false ->
  (forall h t, p (InstallCall h t) = false) ->
  p RefreshCall = false ->
  quiet p (importCloudProject_try cloudData).
Proof.
  intros Hl He Hg Hi Hr.
  unfold importCloudProject_try, validatePayload, decodePayload, readFormat,
    requireConfig, installUnlessLocal, prepareInstallHeader.
  repeat first
    [ apply quiet_bind; [ | intros ]
    | apply quiet_ret | apply quiet_throw | apply quiet_liftE
    | apply quiet_parseJSON
    | apply quiet_getHeaders; exact Hg
    | apply quiet_installAsync; apply Hi
    | apply quiet_refreshWorkspace; exact Hr
    | apply quiet_emit; (apply Hl || apply He)
    | match goal with
      | |- quiet _ (if ?b then _ else _) => destruct b
      | |- quiet _ (match ?x with _ => _ end) => destruct x
      end
    | progress unfold console_log, console_error ].
Qed.

Lemma import_notifications cloudData w :
  notifications (trace (snd (importCloudProject cloudData w))) =
    notifications (trace w) ++
    match fst (importCloudProject cloudData w) with
    | inl e => [importFailureNotice (cloud_projectName cloudData) e]
    | inr _ => []
    end.
Proof.
  rewrite importCloudProject_run.
  assert (Q : quiet is_notification (importCloudProject_try cloudData))
    by (apply quiet_importCloudProject_try; reflexivity).
  apply quiet_filter with (w := record (importing cloudData) w) in Q.
  unfold notifications.
  destruct (importCloudProject_try cloudData _) as [[e | b] w1];
    cbn [fst snd] in *.
  - rewrite !filter_record, Q, filter_record. cbn. now rewrite !app_nil_r.
  - rewrite Q, filter_record. cbn. now rewrite app_nil_r.
Qed.

Lemma import_no_fetch cloudData : quiet is_fetch (importCloudProject cloudData).
Proof.
  unfold importCloudProject. apply quiet_bind; [quiet_tac | intros _].
  apply quiet_tryCatch.
  - apply quiet_importCloudProject_try; reflexivity.
  - intros e. quiet_tac.
Qed.








End SyncFacts.

Section SyncClaims.
Context {H : Host}.

Lemma quiet_listing p :
  (forall a, p (ConsoleLog a) = false) ->
  (forall a, p (ConsoleError a) = false) ->
  (forall req, p (FetchCall req) = false) ->
  (forall k, p (StorageRead k) = false) ->
  quiet p listing.
Proof.
  intros Hl He Hf Hs. unfold listing.
  apply quiet_bind; [now apply quiet_getCurrentUserId | intros userId].
  apply quiet_bind; [now apply quiet_getUserProjects | intros l].
  apply quiet_ret.
Qed.




(** C10.  syncFromCloud always returns normally; when its try block throws
    an error, the run ends with one console.error line and one error
    notification carrying the message of that error. *)
Theorem syncFromCloud_never_throws w :
  fst (syncFromCloud w) = inr tt /\
  match syncFromCloud_try (record starting w) with
  | (inl e, w1) =>
      snd (syncFromCloud w) =
        record (ErrorNotification
                  (lf "Cloud sync failed: {0}" [LfStr (errorMsg e)]))
          (record (ConsoleError [LStr "❌ Cloud sync failed:"; LErr e]) w1)
  | (inr _, w1) => snd (syncFromCloud w) = w1
  end.
Proof.
  rewrite syncFromCloud_run.
  destruct (syncFromCloud_try (record starting w)) as [[e | []] w1];
    split; reflexivity.
Qed.

(** C7.  When the listing of the user's cloud projects yields the empty
    list, syncFromCloud logs that no project was found, issues the single
    notification "No cloud projects to sync" and returns: the run sends no
    request but the one of the listing and calls the workspace store not at
    all. *)
Theorem sync_of_empty_list w userId w1 :
  listing (record starting w) = (inr (userId, []), w1) ->
  syncFromCloud w =
    (inr tt,
     record (InfoNotification (lf "No cloud projects to sync" []))
       (record (ConsoleLog [LStr "📭 No cloud projects found"]) w1)) /\
  notifications (trace (snd (syncFromCloud w))) =
    notifications (trace w)
    ++ [InfoNotification (lf "No cloud projects to sync" [])] /\
  filter is_fetch (trace (snd (syncFromCloud w))) =
    filter is_fetch (trace w)
    ++ [FetchCall (getUserProjects_request (API_BASE_URL w) userId)] /\
  filter is_workspace_call (trace (snd (syncFromCloud w))) =
    filter is_workspace_call (trace w).
Proof.
  intros L.
  assert (E : syncFromCloud w =
    (inr tt,
     record (InfoNotification (lf "No cloud projects to sync" []))
       (record (ConsoleLog [LStr "📭 No cloud projects found"]) w1))).
  { rewrite syncFromCloud_run, syncFromCloud_try_run, L. reflexivity. }
  rewrite E. cbn [snd]. split; [reflexivity | ].
  assert (Qn : quiet is_notification listing) by (apply quiet_listing; reflexivity).
  assert (Qw : quiet is_workspace_call listing) by (apply quiet_listing; reflexivity).
  apply quiet_filter with (w := record starting w) in Qn, Qw.
  rewrite L in Qn, Qw. cbn [snd] in Qn, Qw.
  unfold notifications. rewrite !filter_record, Qn, Qw, !filter_record.
  cbn [is_notification is_workspace_call is_fetch starting].
  rewrite !app_nil_r. repeat split.
  (* the only request is the one of the listing *)
  unfold listing in L. unfold bind at 1 in L.
  assert (Qu : quiet is_fetch getCurrentUserId)
    by (apply quiet_getCurrentUserId; reflexivity).
  destruct (Qu (record starting w)) as [B [evs [Et Ef]]].
  destruct (getCurrentUserId (record starting w)) as [[e | u] w0];
    [discriminate | ]. cbn [snd] in *.
  destruct (transport_sends
              (fun base => getUserProjects_request base u)
              "Failed to fetch projects"
              (fun received =>
                 let projects := as_DbProjectListItems received in
                 console_log [LStr ("📋 Fetched "
                                    ++ string_of_nat (List.length projects)
                                    ++ " projects for user " ++ u)] ;;
                 ret projects)
              "❌ Error fetching user projects:" w0) as [evs' [E' F']].
  { intros; quiet_tac. }
  change (transport _ _ _ _) with (getUserProjects u) in E'.
  unfold bind in L.
  destruct (getUserProjects u w0) as [[e | l] w2]; [discriminate | ].
  cbn [snd] in E'. inversion L; subst u l w2.
  rewrite E', filter_app, Et, filter_app, Ef, B. cbn [filter is_fetch].
  rewrite F'. unfold record, starting. cbn [trace API_BASE_URL].
  rewrite filter_app. cbn. now rewrite !app_nil_r.
Qed.



End SyncClaims.

Lemma sync_of_empty_list_witness :
  notifications (trace (snd (syncFromCloud Sample.emptyCloud)))
  = [InfoNotification (lf "No cloud projects to sync" [])].
Proof.
  destruct (@sync_of_empty_list (Sample.host_of Sample.emptyServer)
              Sample.emptyCloud "test-user"
              (snd (listing (record starting Sample.emptyCloud))) eq_refl)
    as [_ [N _]].
  exact N.
Defined.





(* ================================================================== *)
(** * Further properties of the transport layer *)
(* ================================================================== *)

Section TransportMore.
Context {H : Host}.

Lemma then_ret_fst A (m : M A) w :
  fst ((m ;; ret tt) w) =
    match fst (m w) with inl e => inl e | inr _ => inr tt end.
Proof. unfold bind, ret. now destruct (m w) as [[e | a] w1]. Qed.

Lemma then_ret_snd A (m : M A) w : snd ((m ;; ret tt) w) = snd (m w).
Proof. unfold bind, ret. now destruct (m w) as [[e | a] w1]. Qed.

Lemma transport_rejected A request fallback (onSuccess : JSON -> M A) label w e :
  fst (host_fetch (host w) (request (API_BASE_URL w))) = inl e ->
  fst (transport request fallback onSuccess label w) = inl e.
Proof.
  intros Hf. unfold transport, tryCatch, bind, read_API_BASE_URL, fetch.
  cbn [fst snd]. rewrite Hf. reflexivity.
Qed.

Lemma transport_successful A request fallback (onSuccess : JSON -> M A)
  label w response :
  fst (host_fetch (host w) (request (API_BASE_URL w))) = inr response ->
  ok response = true ->
  let w1 := with_host (snd (host_fetch (host w) (request (API_BASE_URL w))))
              (record (FetchCall (request (API_BASE_URL w))) w) in
  transport request fallback onSuccess label w =
    match json response with
    | inl e => (inl e, record (ConsoleError [LStr label; LErr e]) w1)
    | inr received =>
        tryCatch (onSuccess received)
          (fun error => console_error [LStr label; LErr error] ;; throw error)
          w1
    end.
Proof.
  intros Hf Hok w1. unfold transport, tryCatch, bind at 1 2, read_API_BASE_URL,
    fetch. cbn [fst snd]. rewrite Hf, Hok. cbn [negb].
  fold w1. unfold bind at 1, liftE.
  destruct (json response) as [e | received]; reflexivity.
Qed.

Lemma call_sends_once op w :
  filter is_fetch (trace (snd (call op w))) =
    filter is_fetch (trace w) ++ [FetchCall (requestOf (API_BASE_URL w) op)].
Proof.
  destruct (call_transport op) as [A [onSuccess [label [Hq E]]]].
  rewrite E, then_ret_snd.
  destruct (transport_sends (fun base => requestOf base op) (defaultMessage op)
              onSuccess label w Hq) as [evs [Et Ef]].
  rewrite Et, filter_app. cbn [filter is_fetch]. now rewrite Ef.
Qed.

Lemma quiet_call p op :
  (forall a, p (ConsoleLog a) = false) ->
  (forall a, p (ConsoleError a) = false) ->
  (forall req, p (FetchCall req) = false) ->
  quiet p (call op).
Proof.
  intros Hl He Hf.
  destruct op; unfold call, saveProject, getUserProjects, getProject,
    updateProject, deleteProject;
  repeat first
    [ apply quiet_bind; [ | intros ]
    | apply quiet_tryCatch; [ | intros ]
    | apply quiet_ret | apply quiet_throw | apply quiet_liftE
    | apply quiet_read_API_BASE_URL
    | apply quiet_fetch; apply Hf
    | apply quiet_emit; (apply Hl || apply He)
    | match goal with |- quiet _ (if ?b then _ else _) => destruct b end
    | progress unfold throwApiError, console_log, console_error ].
Qed.

(** X1.  Every transport operation makes a single attempt: whatever the
    server answers, a call sends exactly one request, the one of the
    operation at the current base URL, and leaves the base URL as it is. *)
Theorem transport_single_attempt op w :
  filter is_fetch (trace (snd (call op w))) =
    filter is_fetch (trace w) ++ [FetchCall (requestOf (API_BASE_URL w) op)] /\
  API_BASE_URL (snd (call op w)) = API_BASE_URL w.
Proof.
  split; [apply call_sends_once | ].
  assert (Q : quiet (fun _ => false) (call op)) by (apply quiet_call; reflexivity).
  now destruct (Q w).
Qed.

(** X2.  When the request of a transport operation gets no response (fetch
    rejects), the operation fails with that very error. *)
Theorem network_failure_propagates op w e :
  fst (host_fetch (host w) (requestOf (API_BASE_URL w) op)) = inl e ->
  fst (call op w) = inl e.
Proof.
  intros Hf. destruct (call_transport op) as [A [onSuccess [label [_ E]]]].
  rewrite E, then_ret_fst.
  now rewrite (transport_rejected (fun base => requestOf base op)
                 (defaultMessage op) onSuccess label w Hf).
Qed.

(** X3.  A transport operation shows the user nothing and never calls the
    workspace store: it adds no notification and no workspace call to the
    trace. *)
Theorem transport_is_silent op w :
  notifications (trace (snd (call op w))) = notifications (trace w) /\
  filter is_workspace_call (trace (snd (call op w)))
    = filter is_workspace_call (trace w).
Proof.
  split; apply quiet_filter; apply quiet_call; reflexivity.
Qed.

(** X4.  When the response has a successful status but its body is not
    JSON, the operation fails with the error of [response.json()]. *)
Theorem successful_status_unparsable_body op w response e :
  fst (host_fetch (host w) (requestOf (API_BASE_URL w) op)) = inr response ->
  ok response = true ->
  json response = inl e ->
  fst (call op w) = inl e.
Proof.
  intros Hf Hok Hj. destruct (call_transport op) as [A [onSuccess [label [_ E]]]].
  rewrite E, then_ret_fst.
  rewrite (transport_successful (fun base => requestOf base op)
             (defaultMessage op) onSuccess label w Hf Hok), Hj.
  reflexivity.
Qed.

(** X6.  checkApiHealth does not read the body of an unsuccessful
    response: it fails with the fixed error "API health check failed",
    after its one request and one console.error line. *)
Theorem checkApiHealth_unsuccessful w response :
  fst (host_fetch (host w) (checkApiHealth_request (API_BASE_URL w)))
    = inr response ->
  ok response = false ->
  checkApiHealth w =
    (inl (new_Error "API health check failed"),
     record (ConsoleError [LStr "❌ API health check failed:";
                           LErr (new_Error "API health check failed")])
       (with_host
          (snd (host_fetch (host w) (checkApiHealth_request (API_BASE_URL w))))
          (record (FetchCall (checkApiHealth_request (API_BASE_URL w))) w))).
Proof.
  intros Hf Hok. unfold checkApiHealth, tryCatch, bind, read_API_BASE_URL, fetch.
  cbn [fst snd]. rewrite Hf, Hok. reflexivity.
Qed.


(** X8.  getCurrentUserId returns the stored user id when it is a
    non-empty string and "test-user" when nothing or the empty string is
    stored; it fails with the error of localStorage when reading throws;
    it never returns the empty string. *)
Theorem getCurrentUserId_result w :
  match localStorage_getItem (host w) "ctrlaltcode_user_id" with
  | inl e => fst (getCurrentUserId w) = inl e
  | inr None => fst (getCurrentUserId w) = inr "test-user"
  | inr (Some stored) =>
      fst (getCurrentUserId w) =
        inr (if stored =? "" then "test-user" else stored)
  end /\
  fst (getCurrentUserId w) <> inr "".
Proof.
  unfold getCurrentUserId, bind, localStorage_get. cbn [fst snd].
  destruct (localStorage_getItem (host w) "ctrlaltcode_user_id")
    as [e | [stored | ]]; cbn.
  - split; [reflexivity | discriminate].
  - destruct (stored =? "") eqn:E; cbn; (split; [reflexivity | ]).
    + discriminate.
    + intros C. inversion C. subst stored. discriminate E.
  - split; [reflexivity | discriminate].
Qed.

End TransportMore.

Lemma network_failure_propagates_witness :
  fst (@call (Sample.host_of Sample.offline)
         (OpDeleteProject 7 "test-user") Sample.freshWorkspace)
  = inl (JsError "TypeError" "Failed to fetch").
Proof.
  apply (@network_failure_propagates (Sample.host_of Sample.offline)).
  reflexivity.
Defined.

Lemma successful_status_unparsable_body_witness :
  fst (call (OpGetUserProjects "test-user") Sample.htmlCloud)
  = inl (JsError "SyntaxError" "Unexpected token < in JSON at position 0").
Proof.
  apply (@successful_status_unparsable_body (Sample.host_of Sample.htmlPage)
           (OpGetUserProjects "test-user") Sample.htmlCloud
           {| ok := true;
              json := inl (JsError "SyntaxError"
                             "Unexpected token < in JSON at position 0") |});
    reflexivity.
Defined.

Lemma checkApiHealth_unsuccessful_witness :
  fst (checkApiHealth Sample.gatewayCloud)
  = inl (new_Error "API health check failed").
Proof.
  rewrite (@checkApiHealth_unsuccessful (Sample.host_of Sample.badGateway)
             Sample.gatewayCloud
             {| ok := false;
                json := inl (JsError "SyntaxError"
                               "Unexpected token < in JSON at position 0") |});
    reflexivity.
Defined.

(* ================================================================== *)
(** * Further properties of the importer *)
(* ================================================================== *)

Section ImporterMore.
Context {H : Host}.

Lemma or_else_defined a b : or_else a (Some b) <> None.
Proof.
  unfold or_else. destruct a as [v | ]; [ | discriminate].
  destruct (truthy (Some v)); discriminate.
Qed.

(** X9.  The header importCloudProject hands to the workspace store bears
    the incoming project name and the id of the application target, is
    marked as not published, and has its editor, meta and pubId fields
    always defined; the editor preferred by the configuration file wins
    over the editor of the payload header, and a payload without header
    gets no target version, the empty meta object and the empty pubId. *)
Theorem install_header_fields cloudData config header w installHeader :
  fst (prepareInstallHeader cloudData config header w) = inr installHeader ->
  name installHeader = cloud_projectName cloudData /\
  target installHeader = pxt_appTarget_id /\
  pubCurrent installHeader = false /\
  editor installHeader <> None /\
  meta installHeader <> None /\
  pubId installHeader <> None /\
  (truthy (field config "preferredEditor") = true ->
   editor installHeader = field config "preferredEditor") /\
  (header = None ->
   targetVersion installHeader = None /\
   meta installHeader = Some (JObj []) /\
   pubId installHeader = Some (JStr "")).
Proof.
  unfold prepareInstallHeader, bind, liftE, ret.
  destruct (JSON_eq_null config) as [-> | Hn]; [discriminate | ].
  rewrite (Get_field "preferredEditor" Hn). cbn [fst snd].
  intros E. inversion E; subst installHeader; clear E. cbn.
  repeat split; try apply or_else_defined.
  - intros Hp. unfold or_else at 2. unfold field in Hp. cbn in Hp.
    rewrite Hp. unfold or_else. now rewrite Hp.
  - now subst header.
  - now subst header.
  - now subst header.
Qed.

(** X10.  When the payload passes the format checks, no local header bears
    the project name, the configuration file parses and the workspace store
    accepts the installation, importCloudProject records one installation
    request with the prepared header and the file map and returns true,
    calling the refresh callback when one is registered; when that callback
    throws, the import fails with its error although the project is
    installed. *)
Theorem import_installs cloudData w text header configText config
  installHeader installed h1 :
  fst (validatePayload cloudData w) = inr (text, header, configText) ->
  find (fun h => header_name h =? cloud_projectName cloudData)
       (workspace_getHeaders (host w)) = None ->
  JSON_parse (ToStr configText) = inr config ->
  fst (prepareInstallHeader cloudData config header w) = inr installHeader ->
  workspace_installAsync (host w) installHeader text = (inr installed, h1) ->
  let w1 :=
    record (ConsoleLog [LStr ("✅ Successfully imported project: "
                              ++ cloud_projectName cloudData)])
      (with_host h1
         (record (InstallCall installHeader text)
            (record GetHeadersCall (record (importing cloudData) w)))) in
  match window_refreshWorkspace h1 with
  | None => importCloudProject cloudData w = (inr true, w1)
  | Some r =>
      let w2 := with_host (snd r) (record RefreshCall w1) in
      match fst r with
      | inr _ => importCloudProject cloudData w = (inr true, w2)
      | inl e =>
          importCloudProject cloudData w =
            (inl e,
             record (importFailureNotice (cloud_projectName cloudData) e)
               (record (importFailureLog cloudData e) w2))
      end
  end.
Proof.
  intros Hv Hfind Hp Hih Hinst w1.
  set (w0 := record (importing cloudData) w).
  assert (Hv0 : validatePayload cloudData w0 = (inr (text, header, configText), w0)).
  { apply validatePayload_ok. now rewrite (validatePayload_result cloudData w0 w). }
  destruct (prepareInstallHeader_pure cloudData config header) as [r Hr].
  rewrite Hr in Hih. cbn in Hih. subst r.
  assert (T : importCloudProject_try cloudData w0 =
              (fun r : (Exn + unit) * World =>
                 match fst r with
                 | inl e => (inl e, snd r)
                 | inr _ => (inr true, snd r)
                 end) (refreshWorkspace w1)).
  { unfold importCloudProject_try. rewrite (bind_inr _ _ _ Hv0). cbn [fst snd].
    unfold installUnlessLocal, bind at 1, getHeaders at 1.
    change (host w0) with (host w). rewrite Hfind.
    erewrite bind_inr; [ | unfold parseJSON; rewrite Hp; reflexivity].
    erewrite bind_inr; [ | apply Hr].
    unfold bind at 1, installAsync at 1. cbn [host record].
    change (host w0) with (host w). rewrite Hinst. cbn [fst snd].
    unfold bind at 1, console_log at 1, emit at 1. subst w0. fold w1.
    unfold bind, ret.
    destruct (refreshWorkspace w1) as [[e | []] w3]; reflexivity. }
  subst w0. rewrite importCloudProject_run, T.
  unfold refreshWorkspace. change (host w1) with h1.
  destruct (window_refreshWorkspace h1) as [[[e | []] h2] | ]; reflexivity.
Qed.


(** X11.  A non-empty string under [source] decides the format: the file
    map is the parsed source and the header is [meta], whatever [text] and
    [header] hold; and when the source is not JSON the payload fails with
    the SyntaxError, with no fallback to a file map under [text]. *)
Theorem source_takes_precedence projectData s w :
  field projectData "source" = Some (JStr s) ->
  s <> "" ->
  match JSON_parse s with
  | inr text => readFormat projectData w = (inr (text, field projectData "meta"), w)
  | inl m => readFormat projectData w = (inl (JsError "SyntaxError" m), w)
  end.
Proof.
  intros Hs Hne.
  assert (Hn : projectData <> JNull) by (intros ->; discriminate).
  unfold readFormat, bind, liftE. rewrite (Get_field "source" Hn).
  cbn [fst snd]. rewrite string_test, Hs. cbn [is_nonempty_string].
  apply String.eqb_neq in Hne. rewrite Hne. cbn [negb].
  unfold parseJSON. cbn [ToStr ToString].
  destruct (JSON_parse s) as [m | text]; [reflexivity | ].
  now rewrite (Get_field "meta" Hn).
Qed.

(** X12.  A payload that is the JSON null, and a payload whose source
    parses to null, make importCloudProject fail with a TypeError (not with
    an InvalidFormat error), before any call to the workspace store. *)
Theorem null_payload_type_error cloudData w projectData :
  fst (decodePayload cloudData w) = inr projectData ->
  projectData = JNull \/ FileMap projectData JNull ->
  (exists m, fst (importCloudProject cloudData w) = inl (JsError "TypeError" m)) /\
  filter is_workspace_call (trace (snd (importCloudProject cloudData w)))
    = filter is_workspace_call (trace w).
Proof.
  intros Hd Hcase. set (w0 := record (importing cloudData) w).
  destruct (decodePayload_pure cloudData) as [r Hr].
  rewrite Hr in Hd. cbn in Hd. subst r.
  assert (V : exists m w1,
             validatePayload cloudData w0 = (inl (JsError "TypeError" m), w1)).
  { rewrite validatePayload_assoc, Hr.
    destruct Hcase as [-> | F].
    - do 2 eexists. reflexivity.
    - destruct (readFormat_fileMap w0 F) as [header R].
      destruct (readFormat_shape projectData) as [[f Hf] | [e Hf]].
      + rewrite Hf in *. cbn in R. inversion R; subst f. cbn [fst].
        do 2 eexists. reflexivity.
      + destruct (Hf w0) as [w1 H1]. rewrite H1 in R. discriminate R. }
  destruct V as [m [w1 V]].
  destruct (validation_failure_import cloudData w V) as [E Q].
  split; [now exists m | exact Q].
Qed.

(** X13.  importCloudProject sends no HTTP request and leaves the base URL
    alone; it issues a notification exactly when it fails, namely the one
    error notification that names the project and the error. *)
Theorem import_effects cloudData w :
  filter is_fetch (trace (snd (importCloudProject cloudData w)))
    = filter is_fetch (trace w) /\
  API_BASE_URL (snd (importCloudProject cloudData w)) = API_BASE_URL w /\
  notifications (trace (snd (importCloudProject cloudData w))) =
    notifications (trace w) ++
    match fst (importCloudProject cloudData w) with
    | inl e => [importFailureNotice (cloud_projectName cloudData) e]
    | inr _ => []
    end.
Proof.
  split; [apply quiet_filter, import_no_fetch | ].
  split; [now destruct (import_no_fetch cloudData w) | ].
  apply import_notifications.
Qed.

Lemma installUnlessLocal_installs cloudData text header configText w r :
  r = installUnlessLocal cloudData text header configText w ->
  match fst r with
  | inr true =>
      exists installHeader,
        name installHeader = cloud_projectName cloudData /\
        filter is_install (trace (snd r))
        = filter is_install (trace w) ++ [InstallCall installHeader text]
  | inr false =>
      snd r =
        record (ConsoleLog
                  [LStr "   Local files trump cloud files - skipping import"])
          (record (ConsoleLog
                     [LStr ("⚠️  Project " ++ String dquote
                            (cloud_projectName cloudData ++ String dquote
                             " already exists locally"))])
             (record GetHeadersCall w))
  | inl _ =>
      List.length (filter is_install (trace (snd r)))
      <= List.length (filter is_install (trace w)) + 1
  end.
Proof.
  unfold installUnlessLocal, bind at 1, getHeaders at 1.
  destruct (find _ (workspace_getHeaders (host w))) as [h | ].
  { intros ->. reflexivity. }
  unfold bind at 1, parseJSON.
  destruct (JSON_parse (ToStr configText)) as [m | config].
  { intros ->. cbn. rewrite filter_app. cbn. rewrite app_nil_r. lia. }
  unfold ret at 1. cbn iota.
  destruct (prepareInstallHeader_pure cloudData config header) as [r0 Hr].
  unfold bind at 1. rewrite Hr.
  destruct r0 as [e | ih].
  { intros ->. cbn. rewrite filter_app. cbn. rewrite app_nil_r. lia. }
  assert (Hname : name ih = cloud_projectName cloudData).
  { specialize (Hr w). unfold prepareInstallHeader, bind, liftE, ret in Hr.
    destruct (Get config "preferredEditor"); cbn in Hr; [discriminate | ].
    inversion Hr. reflexivity. }
  unfold bind at 1, installAsync at 1. cbn [host record fst snd].
  destruct (workspace_installAsync (host w) ih text) as [[e | installed] h1];
    cbn [fst snd].
  { intros ->. cbn. rewrite !filter_app. cbn. rewrite app_nil_r, length_app.
    cbn. lia. }
  unfold bind at 1, console_log at 1, emit at 1.
  unfold bind, ret, refreshWorkspace. cbn [host with_host record].
  destruct (window_refreshWorkspace h1) as [[[e | []] h2] | ];
    cbn [fst snd]; intros ->.
  - cbn. rewrite !filter_app. cbn. rewrite !app_nil_r, !length_app. cbn. lia.
  - exists ih. split; [exact Hname | ]. cbn. rewrite !filter_app. cbn.
    now rewrite !app_nil_r.
  - exists ih. split; [exact Hname | ]. cbn. rewrite !filter_app. cbn.
    now rewrite !app_nil_r.
Qed.

Lemma import_install_count cloudData w :
  match fst (importCloudProject cloudData w) with
  | inr true =>
      exists installHeader text,
        name installHeader = cloud_projectName cloudData /\
        filter is_install (trace (snd (importCloudProject cloudData w)))
        = filter is_install (trace w) ++ [InstallCall installHeader text]
  | inr false =>
      filter is_install (trace (snd (importCloudProject cloudData w)))
        = filter is_install (trace w) /\
      host (snd (importCloudProject cloudData w)) = host w
  | inl _ =>
      List.length
        (filter is_install (trace (snd (importCloudProject cloudData w))))
      <= List.length (filter is_install (trace w)) + 1
  end.
Proof.
  rewrite importCloudProject_run. set (w0 := record (importing cloudData) w).
  assert (F0 : filter is_install (trace w0) = filter is_install (trace w)).
  { unfold w0. rewrite filter_record. cbn. apply app_nil_r. }
  unfold importCloudProject_try.
  destruct (validatePayload_shape cloudData) as [[v Hv] | [e He]].
  - rewrite (bind_inr _ _ _ (Hv w0)).
    pose proof (@installUnlessLocal_installs cloudData (fst (fst v))
                  (snd (fst v)) (snd v) w0 _ eq_refl) as I.
    destruct (installUnlessLocal cloudData (fst (fst v)) (snd (fst v))
                (snd v) w0) as [[e | [ | ]] w1]; cbn [fst snd] in *.
    + rewrite !filter_record. cbn. rewrite !app_nil_r. now rewrite <- F0.
    + destruct I as [ih [Hn I]]. exists ih, (fst (fst v)).
      split; [exact Hn | ]. now rewrite I, F0.
    + subst w1. rewrite !filter_record. cbn. rewrite !app_nil_r.
      split; [exact F0 | reflexivity].
  - destruct (He w0) as [w1 H1]. rewrite (bind_inl _ _ _ H1). cbn [fst snd].
    assert (Q : quiet is_install (validatePayload cloudData)).
    { unfold validatePayload, decodePayload, readFormat, requireConfig.
      quiet_tac. }
    apply quiet_filter with (w := w0) in Q. rewrite H1 in Q. cbn [snd] in Q.
    rewrite !filter_record. cbn. rewrite !app_nil_r, Q, F0. lia.
Qed.


(** X14.  One import asks the workspace store for at most one installation:
    when importCloudProject returns true it has recorded exactly one
    installation request, for a header that bears the project name; when it
    returns false it has recorded none and has left the store as it was;
    when it fails it has recorded at most one. *)
Theorem import_installs_at_most_once cloudData w :
  match fst (importCloudProject cloudData w) with
  | inr true =>
      exists installHeader text,
        name installHeader = cloud_projectName cloudData /\
        filter is_install (trace (snd (importCloudProject cloudData w)))
        = filter is_install (trace w) ++ [InstallCall installHeader text]
  | inr false =>
      filter is_install (trace (snd (importCloudProject cloudData w)))
        = filter is_install (trace w) /\
      host (snd (importCloudProject cloudData w)) = host w
  | inl _ =>
      List.length
        (filter is_install (trace (snd (importCloudProject cloudData w))))
      <= List.length (filter is_install (trace w)) + 1
  end.
Proof. apply import_install_count. Qed.

End ImporterMore.

Lemma install_header_fields_witness :
  editor {| target := "arcade"; targetVersion := None;
            editor := Some (JStr "blocksprj"); name := "Alpha";
            meta := Some (JObj []); pubId := Some (JStr "");
            pubCurrent := false |} <> None.
Proof.
  apply (@install_header_fields (Sample.host_of Sample.offline)
           (Sample.cloud "Alpha" Sample.goodText) (JObj []) None
           Sample.freshWorkspace).
  reflexivity.
Defined.

Lemma import_installs_witness :
  fst (importCloudProject (Sample.cloud "Alpha" Sample.goodText)
         Sample.freshWorkspace) = inr true.
Proof.
  rewrite (@import_installs (Sample.host_of Sample.offline)
             (Sample.cloud "Alpha" Sample.goodText) Sample.freshWorkspace
             (JObj [("pxt.json", JStr "{}")]) (Some (JObj []))
             (Some (JStr "{}")) (JObj [])
             {| target := "arcade"; targetVersion := None;
                editor := Some (JStr "blocksprj"); name := "Alpha";
                meta := Some (JObj []); pubId := Some (JStr "");
                pubCurrent := false |}
             {| header_id := "local-Alpha"; header_name := "Alpha" |}
             [{| header_id := "local-Alpha"; header_name := "Alpha" |}]);
    reflexivity.
Defined.

Lemma source_takes_precedence_witness :
  @readFormat (Sample.host_of Sample.offline) Sample.bothFormats
    Sample.freshWorkspace
  = (inr (JObj [], Some (JObj [("editor", JStr "tsprj")])),
     Sample.freshWorkspace).
Proof.
  apply (@source_takes_precedence (Sample.host_of Sample.offline)
           Sample.bothFormats "{}" Sample.freshWorkspace).
  - reflexivity.
  - discriminate.
Defined.

Lemma null_payload_type_error_witness :
  exists m,
    fst (importCloudProject (Sample.cloud "Nothing" "null")
           Sample.freshWorkspace) = inl (JsError "TypeError" m).
Proof.
  apply (@null_payload_type_error (Sample.host_of Sample.offline)
           (Sample.cloud "Nothing" "null") Sample.freshWorkspace JNull).
  - reflexivity.
  - now left.
Defined.

(* ================================================================== *)
(** * Further properties of the sync loop and of the cloud save *)
(* ================================================================== *)

Section SyncMore.
Context {H : Host}.

Lemma filter_all A (f : A -> bool) (l : list A) :
  List.length (filter f l) = List.length l <-> forallb f l = true.
Proof.
  induction l as [ | a l IH]; [now split | ]. cbn.
  pose proof (filter_length_le f l) as Hle.
  destruct (f a); cbn.
  - rewrite <- IH. split; lia.
  - split; [lia | discriminate].
Qed.

(** X15.  The counters the sync loop ends with never exceed the number of
    listed projects, and they add up to it exactly when every entry was
    fetched and imported or skipped. *)
Theorem sync_counts_bounded userId cloudProjects w :
  exists i s,
    fst (syncLoop userId cloudProjects 0 0 w) = inr (i, s) /\
    i + s <= List.length cloudProjects /\
    (i + s = List.length cloudProjects <->
     forallb succeeded (turns userId cloudProjects w) = true).
Proof.
  do 2 eexists. split; [apply syncLoop_counts | ]. cbn [Nat.add].
  rewrite succeeded_count, <- (turns_length userId cloudProjects w).
  split; [apply filter_length_le | apply filter_all].
Qed.

Lemma quiet_grows p q A (m : M A) w :
  quiet p m ->
  List.length (filter q (trace w))
    <= List.length (filter q (trace (snd (m w)))).
Proof.
  intros Q. destruct (Q w) as [_ [evs [E _]]].
  rewrite E, filter_app, length_app. lia.
Qed.

Lemma quiet_importCloudProject p cloudData :
  (forall a, p (ConsoleLog a) = false) ->
  (forall a, p (ConsoleError a) = false) ->
  (forall m, p (ErrorNotification m) = false) ->
  p GetHeadersCall = false ->
  (forall h t, p (InstallCall h t) = false) ->
  p RefreshCall = false ->
  quiet p (importCloudProject cloudData).
Proof.
  intros Hl He Hn Hg Hi Hr. unfold importCloudProject.
  apply quiet_bind; [apply quiet_emit, Hl | intros _].
  apply quiet_tryCatch; [now apply quiet_importCloudProject_try | intros e].
  repeat first
    [ apply quiet_bind; [ | intros ]
    | apply quiet_throw
    | apply quiet_emit; (apply He || apply Hn)
    | progress unfold console_error, core_errorNotification ].
Qed.

Lemma turn_installs userId projectInfo i s w :
  List.length (filter is_install (trace w))
  + (if was_imported (turn userId projectInfo w) then 1 else 0)
  <= List.length (filter is_install
                    (trace (snd (syncOne userId projectInfo i s w))))
  <= List.length (filter is_install (trace w)) + 1.
Proof.
  rewrite syncOne_run, fetchAndImport_run. unfold turn.
  assert (Q : quiet is_install (getProject (item_id projectInfo) userId))
    by (apply quiet_getProject; reflexivity).
  apply quiet_filter with (w := w) in Q.
  destruct (getProject (item_id projectInfo) userId w) as [[e | full] w1];
    cbn [fst snd] in *.
  - rewrite filter_record, Q. cbn. rewrite app_nil_r. lia.
  - pose proof (import_install_count (cloudDataOf full) w1) as I.
    pose proof (@quiet_grows (fun _ => false) is_install _
                  (importCloudProject (cloudDataOf full)) w1
                  ltac:(apply quiet_importCloudProject; reflexivity)) as G.
    rewrite Q in I, G.
    destruct (importCloudProject (cloudDataOf full) w1) as [[e | [ | ]] w2];
      cbn [fst snd was_imported] in *.
    + rewrite filter_record. cbn. rewrite app_nil_r. lia.
    + destruct I as [ih [text [_ I]]]. rewrite I, length_app. cbn. lia.
    + destruct I as [I _]. rewrite I. lia.
Qed.

(** X16.  In a run of the sync loop every project counted as imported was
    installed, and no entry is installed twice: the number of installation
    requests the loop records is at least the number of imported entries
    and at most the number of listed entries. *)
Theorem sync_installs_bounded userId cloudProjects : forall i s w,
  List.length (filter is_install (trace w))
  + List.length (filter was_imported (turns userId cloudProjects w))
  <= List.length (filter is_install
                    (trace (snd (syncLoop userId cloudProjects i s w))))
  <= List.length (filter is_install (trace w)) + List.length cloudProjects.
Proof.
  induction cloudProjects as [ | projectInfo rest IH]; intros i s w.
  - cbn. lia.
  - cbn [syncLoop turns]. unfold bind.
    pose proof (syncOne_counts userId projectInfo i s w) as C.
    pose proof (syncOne_world userId projectInfo i s w) as W.
    pose proof (turn_installs userId projectInfo i s w) as T.
    destruct (syncOne userId projectInfo i s w) as [[e | counts] w1];
      cbn [fst snd] in C, W, T; [discriminate | ].
    specialize (IH (fst counts) (snd counts) w1). rewrite <- W.
    cbn [filter List.length].
    destruct (was_imported (turn userId projectInfo w)); cbn [List.length];
      lia.
Qed.

End SyncMore.

Section SaveMore.
Context {H : Host}.

Lemma handleCloudSaveWithData_run projectName projectData w :
  handleCloudSaveWithData projectName projectData w =
    match saveAttempt projectName projectData (record saveInitiated w) with
    | (inl e, w1) =>
        (inl e,
         record (saveFailureNotice projectName e)
           (record (ConsoleError [LStr "❌ Error saving to cloud:"; LErr e]) w1))
    | (inr result, w1) =>
        (inr tt,
         record (savedNotice projectName)
           (record (ConsoleLog [LStr "✅ Project saved to cloud:"; LJson result])
              w1))
    end.
Proof.
  unfold handleCloudSaveWithData, saveAttempt, saveInitiated, savedNotice,
    saveFailureNotice, bind, tryCatch, console_log, console_error,
    core_infoNotification, core_errorNotification, emit, liftE, throw.
  destruct (uint8ArrayToBase64 projectData) as [e | b64]; [reflexivity | ].
  destruct (getCurrentUserId _) as [[e | u] w1]; [reflexivity | ].
  destruct (saveProject u projectName b64 w1) as [[e | result] w2];
    reflexivity.
Qed.

Lemma quiet_saveProject p userId projectName projectData :
  (forall a, p (ConsoleLog a) = false) ->
  (forall a, p (ConsoleError a) = false) ->
  (forall req, p (FetchCall req) = false) ->
  quiet p (saveProject userId projectName projectData).
Proof.
  intros Hl He Hf. unfold saveProject.
  repeat first
    [ apply quiet_bind; [ | intros ]
    | apply quiet_tryCatch; [ | intros ]
    | apply quiet_ret | apply quiet_throw | apply quiet_liftE
    | apply quiet_read_API_BASE_URL
    | apply quiet_fetch; apply Hf
    | apply quiet_emit; (apply Hl || apply He)
    | match goal with |- quiet _ (if ?b then _ else _) => destruct b end
    | progress unfold throwApiError, console_log, console_error ].
Qed.

Lemma getCurrentUserId_host w w' :
  host w = host w' -> fst (getCurrentUserId w) = fst (getCurrentUserId w').
Proof.
  intros E. unfold getCurrentUserId, bind, localStorage_get. cbn [fst snd].
  rewrite E.
  destruct (localStorage_getItem (host w') "ctrlaltcode_user_id")
    as [e | stored]; [reflexivity | ].
  now destruct (truthy (option_map JStr stored)).
Qed.

Lemma quiet_saveAttempt p projectName projectData :
  (forall a, p (ConsoleLog a) = false) ->
  (forall a, p (ConsoleError a) = false) ->
  (forall req, p (FetchCall req) = false) ->
  (forall k, p (StorageRead k) = false) ->
  quiet p (saveAttempt projectName projectData).
Proof.
  intros Hl He Hf Hs. unfold saveAttempt.
  apply quiet_bind; [apply quiet_liftE | intros b64].
  apply quiet_bind; [apply quiet_emit, Hl | intros _].
  apply quiet_bind; [now apply quiet_getCurrentUserId | intros u].
  now apply quiet_saveProject.
Qed.

(** X17.  handleCloudSaveWithData shows the user exactly one notification
    per call: "saved to cloud" when encoding, user lookup and saveProject
    all succeed, and otherwise the failure with the error's message, in
    which case it rethrows that same error to its caller. *)
Theorem save_notifies_once projectName projectData w :
  fst (handleCloudSaveWithData projectName projectData w) =
    match fst (saveAttempt projectName projectData (record saveInitiated w)) with
    | inl e => inl e
    | inr _ => inr tt
    end /\
  notifications (trace (snd (handleCloudSaveWithData projectName projectData w))) =
    notifications (trace w) ++
    [match fst (handleCloudSaveWithData projectName projectData w) with
     | inl e => saveFailureNotice projectName e
     | inr _ => savedNotice projectName
     end].
Proof.
  rewrite handleCloudSaveWithData_run.
  assert (Q : quiet is_notification (saveAttempt projectName projectData))
    by (apply quiet_saveAttempt; reflexivity).
  apply quiet_filter with (w := record saveInitiated w) in Q.
  rewrite filter_record in Q. cbn [is_notification saveInitiated] in Q.
  rewrite app_nil_r in Q. unfold notifications.
  destruct (saveAttempt projectName projectData (record saveInitiated w))
    as [[e | result] w1]; cbn [fst snd] in *;
    (split; [reflexivity | ]);
    rewrite !filter_record, Q; cbn; now rewrite app_nil_r.
Qed.

(** X18.  handleCloudSaveWithData sends nothing to the server when the
    bundle cannot be encoded or the stored user id cannot be read: it fails
    with that error and records no request. *)
Theorem save_sends_nothing_without_payload_or_user projectName projectData w e :
  uint8ArrayToBase64 projectData = inl e \/
  ((exists base64Data, uint8ArrayToBase64 projectData = inr base64Data) /\
   localStorage_getItem (host w) "ctrlaltcode_user_id" = inl e) ->
  fst (handleCloudSaveWithData projectName projectData w) = inl e /\
  filter is_fetch (trace (snd (handleCloudSaveWithData projectName projectData w)))
    = filter is_fetch (trace w).
Proof.
  intros Hcase. rewrite handleCloudSaveWithData_run.
  assert (A : exists evs,
    saveAttempt projectName projectData (record saveInitiated w) =
      (inl e, {| host := host w; API_BASE_URL := API_BASE_URL w;
                 trace := trace w ++ saveInitiated :: evs |}) /\
    filter is_fetch evs = []).
  { unfold saveAttempt, bind, liftE.
    destruct Hcase as [He | [[b64 Hb] Hs]].
    - rewrite He. exists []. split; reflexivity.
    - rewrite Hb. unfold console_log, emit, getCurrentUserId, bind,
        localStorage_get. cbn [fst snd host record]. rewrite Hs.
      eexists. split; [ | shelve]. unfold record. cbn [trace host API_BASE_URL].
      rewrite <- !app_assoc. cbn [app]. reflexivity.
      Unshelve. reflexivity. }
  destruct A as [evs [A F]]. rewrite A. cbn [fst snd].
  split; [reflexivity | ].
  rewrite !filter_record. cbn [is_fetch saveFailureNotice]. rewrite !app_nil_r.
  cbn [trace]. rewrite filter_app. cbn [filter is_fetch saveInitiated].
  rewrite F. apply app_nil_r.
Qed.

(** X19.  When the bundle encodes to [base64Data], handleCloudSaveWithData
    sends exactly one request: the POST of saveProject to the current base
    URL, whose body holds the current user id, the project name and
    [base64Data]. *)
Theorem save_sends_encoded_bundle projectName projectData w base64Data userId :
  uint8ArrayToBase64 projectData = inr base64Data ->
  fst (getCurrentUserId w) = inr userId ->
  filter is_fetch (trace (snd (handleCloudSaveWithData projectName projectData w)))
    = filter is_fetch (trace w)
      ++ [FetchCall
            {| url := API_BASE_URL w ++ "/api/projects";
               method := "POST";
               headers := json_headers;
               body := Some (JSON_stringify
                               [("userId", Some userId);
                                ("projectName", Some projectName);
                                ("projectData", Some base64Data)]) |}].
Proof.
  intros Hb Hu. rewrite handleCloudSaveWithData_run.
  assert (A : filter is_fetch
                (trace (snd (saveAttempt projectName projectData
                               (record saveInitiated w))))
              = filter is_fetch (trace w)
                ++ [FetchCall (saveProject_request (API_BASE_URL w) userId
                                 projectName base64Data)]).
  { unfold saveAttempt, bind at 1, liftE. rewrite Hb.
    unfold bind at 1, console_log at 1, emit at 1.
    set (w1 := record _ (record saveInitiated w)).
    assert (Qu : quiet is_fetch getCurrentUserId)
      by (apply quiet_getCurrentUserId; reflexivity).
    destruct (Qu w1) as [B [evs [Et Ef]]].
    assert (U : fst (getCurrentUserId w1) = inr userId).
    { rewrite <- Hu. now apply getCurrentUserId_host. }
    unfold bind. destruct (getCurrentUserId w1) as [[e | u] w2];
      cbn [fst snd] in *; [discriminate | ]. inversion U; subst u.
    pose proof (call_sends_once (OpSaveProject userId projectName base64Data) w2)
      as S.
    unfold call in S. rewrite then_ret_snd in S. cbn [requestOf] in S.
    rewrite S, Et, filter_app, Ef, B. unfold w1, record, saveInitiated.
    cbn [trace API_BASE_URL]. rewrite !filter_app. cbn. now rewrite !app_nil_r. }
  destruct (saveAttempt projectName projectData (record saveInitiated w))
    as [[e | result] w1]; cbn [fst snd] in *;
    rewrite !filter_record; cbn [is_fetch savedNotice saveFailureNotice];
    now rewrite !app_nil_r.
Qed.

(** X20.  What the cloud save stores is what the import decodes: if
    decodeBase64 undoes encodeBase64 and stringToUint8Array undoes
    uint8ArrayToString, then decoding the payload that uint8ArrayToBase64
    made of a bundle decompresses that very bundle and parses the result. *)
Theorem saved_bundle_is_decoded projectName createdAt projectData base64Data w :
  (forall s b, ts_pxtc_encodeBase64 s = inr b -> ts_pxtc_decodeBase64 b = inr s) ->
  (forall bytes,
      pxt_Util_stringToUint8Array (pxt_Util_uint8ArrayToString bytes) = bytes) ->
  uint8ArrayToBase64 projectData = inr base64Data ->
  decodePayload {| cloud_projectName := projectName;
                   cloud_projectData := base64Data;
                   cloud_createdAt := createdAt |} w =
    (match pxt_lzmaDecompressAsync projectData with
     | inl e => inl e
     | inr decompressedJson =>
         match JSON_parse decompressedJson with
         | inl m => inl (JsError "SyntaxError" m)
         | inr parsed => inr parsed
         end
     end, w).
Proof.
  intros Hcodec Hbytes Hb. unfold uint8ArrayToBase64 in Hb.
  unfold decodePayload, bind, liftE, base64ToUint8Array. cbn [cloud_projectData].
  rewrite (Hcodec _ _ Hb), Hbytes. cbn [fst snd].
  destruct (pxt_lzmaDecompressAsync projectData) as [e | js]; [reflexivity | ].
  unfold parseJSON. cbn [ToStr ToString].
  destruct (JSON_parse js); reflexivity.
Qed.

End SaveMore.

Lemma save_sends_nothing_without_payload_or_user_witness :
  filter is_fetch
    (trace (snd (handleCloudSaveWithData "Alpha" Sample.emptyBundle
                   Sample.noStorage))) = [].
Proof.
  apply (@save_sends_nothing_without_payload_or_user
           Sample.host_without_storage "Alpha" Sample.emptyBundle
           Sample.noStorage
           (JsError "SecurityError" "The operation is insecure.")).
  right. split; [now exists "{}" | reflexivity].
Defined.

Lemma save_sends_encoded_bundle_witness :
  filter is_fetch
    (trace (snd (handleCloudSaveWithData "Alpha" Sample.emptyBundle
                   Sample.freshWorkspace)))
  = [FetchCall (saveProject_request Sample.base "test-user" "Alpha" "{}")].
Proof.
  apply (@save_sends_encoded_bundle (Sample.host_of Sample.offline) "Alpha"
           Sample.emptyBundle Sample.freshWorkspace "{}" "test-user");
    reflexivity.
Defined.

Lemma saved_bundle_is_decoded_witness :
  fst (decodePayload (Sample.cloud "Alpha" "{}") Sample.freshWorkspace)
  = inr (JObj []).
Proof.
  unfold Sample.cloud.
  rewrite (@saved_bundle_is_decoded (Sample.host_of Sample.offline) "Alpha"
             None Sample.emptyBundle "{}" Sample.freshWorkspace).
  - reflexivity.
  - intros s b E. inversion E. reflexivity.
  - intros bytes. apply list_byte_of_string_of_list_byte.
  - reflexivity.
Defined.
